(** * car_valuation_automation: config-driven multi-site validation

    A shallow embedding of [car_valuation_automation.py]: the table of site
    flows, the flow executor ([_execute_action], [search_registration]), the
    field extractor ([get_vehicle_details]), the validator
    ([validate_registration]), the aggregation loop of [main], the two
    loaders of [DataHandler], the report of [TestReporter] and the
    [BrowserManager] context around the run.

    Python text is modelled by [string], one [ascii] per code point, so the
    texts covered are those whose code points are below 256; the character
    tables of [re] and [str.strip] are written out for that range.  The
    browser is an interface ([WebDriver]) over an abstract session state;
    every operation of it may succeed or raise. *)

From Stdlib Require Import Ascii String.
From stdpp Require Import base strings list gmap pretty.

Open Scope string_scope.
Open Scope Z_scope.

(** ** Python values, exceptions and effects *)

(** A locator is the pair (strategy, selector) handed to Selenium. *)
Definition locator : Type := string * string.

(** The dynamically typed values that occur in the cells of the
    expected-data table and in result rows.  A float is kept as its
    [repr], which is all that [str] needs. *)
Inductive pyval :=
| VInt (z : Z)
| VFloat (repr : string)
| VStr (s : string).

Global Instance pyval_eq_dec : EqDecision pyval.
Proof. solve_decision. Defined.

(** The values of a step dictionary: text or a locator tuple. *)
Inductive step_value :=
| SStr (s : string)
| SLoc (l : locator).

Global Instance step_value_eq_dec : EqDecision step_value.
Proof. solve_decision. Defined.

(** The exceptions (all subclasses of [Exception]) that the program can
    meet.  [TimeoutException] is a subclass of [WebDriverException]. *)
Inductive exn :=
| WebDriverException (msg : string)
| TimeoutException (msg : string)
| KeyError (key : string)
| PyException (cls msg : string).

(** [isinstance(e, WebDriverException)] *)
Definition is_WebDriverException (e : exn) : bool :=
  match e with
  | WebDriverException _ | TimeoutException _ => true
  | KeyError _ | PyException _ _ => false
  end.

(** [isinstance(e, Exception)] *)
Definition is_Exception (e : exn) : bool := true.

(** A call either returns a value or raises; the session state survives
    both ways. *)
Inductive outcome (S A : Type) :=
| Ok (a : A) (s : S)
| Raise (e : exn) (s : S).
Arguments Ok {S A} a s.
Arguments Raise {S A} e s.

Definition M (S A : Type) : Type := S → outcome S A.

Definition ret {S A} (a : A) : M S A := λ s, Ok a s.
Definition raise {S A} (e : exn) : M S A := λ s, Raise e s.
Definition bind {S A B} (m : M S A) (k : A → M S B) : M S B :=
  λ s, match m s with
       | Ok a s' => k a s'
       | Raise e s' => Raise e s'
       end.

(** [try: body  except cls as e: handler e] *)
Definition try_except {S A} (body : M S A) (cls : exn → bool)
    (handler : exn → M S A) : M S A :=
  λ s, match body s with
       | Ok a s' => Ok a s'
       | Raise e s' => if cls e then handler e s' else Raise e s'
       end.

Global Instance M_ret {S} : MRet (M S) := λ A a, ret a.
Global Instance M_bind {S} : MBind (M S) := λ A B k m, bind m k.

(** [for x in l: acc = body x acc] *)
Fixpoint for_fold {S A B} (l : list A) (acc : B) (body : A → B → M S B)
    : M S B :=
  match l with
  | [] => ret acc
  | x :: l' => acc' ← body x acc; for_fold l' acc' body
  end.

(** [d[k]] on a dictionary with string keys. *)
Definition getitem {S V} (d : gmap string V) (k : string) : M S V :=
  match d !! k with
  | Some v => ret v
  | None => raise (KeyError k)
  end.

Definition as_locator {S} (v : step_value) : M S locator :=
  match v with
  | SLoc l => ret l
  | _ => raise (PyException "TypeError" "locator expected")
  end.

Definition as_str {S} (v : step_value) : M S string :=
  match v with
  | SStr s => ret s
  | _ => raise (PyException "AttributeError" "format")
  end.

(** ** The browser interface *)

Definition element : Type := string.

(** The expected conditions the program waits on. *)
Inductive condition :=
| element_to_be_clickable (loc : locator)
| presence_of_element_located (loc : locator)
| visibility_of_element_located (loc : locator).

(** What the program asks of Selenium and of the clock.
    [wait_until t c] is [WebDriverWait(driver, t).until(c)]. *)
Class WebDriver (S : Type) := {
  driver_get : string → M S unit;
  wait_until : Z → condition → M S element;
  element_clear : element → M S unit;
  element_send_keys : element → string → M S unit;
  element_click : element → M S unit;
  element_text : element → M S string;
  service_is_connectable : M S bool;
  save_screenshot : string → M S bool;
  time_sleep : Z → S → S
}.

(** ** Configuration *)

Definition By_CSS_SELECTOR : string := "css selector".
Definition By_ID : string := "id".

(** A step of a search flow: a dictionary from key to value. *)
Definition flow_step : Type := gmap string step_value.

Record details_config := {
  details_model : locator;
  details_year : locator
}.

Record site_config := {
  base_url : string;
  search_flow : list flow_step;
  details : details_config
}.

Definition newline : string := String "010"%char "".

Definition motorway : site_config := {|
  base_url := "https://motorway.co.uk/";
  search_flow := [
    {[ "action" := SStr "input";
       "locator" := SLoc (By_CSS_SELECTOR, "input#vrm-input");
       "keys" := SStr ("{registration}" +:+ newline) ]};
    {[ "wait_for" := SLoc (By_CSS_SELECTOR, "h1.HeroVehicle__title") ]}
  ];
  details := {|
    details_model := (By_CSS_SELECTOR, "h1.HeroVehicle__title");
    details_year := (By_CSS_SELECTOR, "ul.HeroVehicle__details li:first-child")
  |}
|}.

Definition autotrader : site_config := {|
  base_url := "https://www.autotrader.co.uk/";
  search_flow := [
    {[ "action" := SStr "click";
       "locator" := SLoc (By_CSS_SELECTOR, "button[data-testid='toggle-button']") ]};
    {[ "action" := SStr "input";
       "locator" := SLoc (By_ID, "registration");
       "keys" := SStr "{registration}" ]};
    {[ "action" := SStr "click";
       "locator" := SLoc (By_CSS_SELECTOR, "button[data-testid='search-button']") ]};
    {[ "wait_for" := SLoc (By_CSS_SELECTOR, "h1[data-testid='search-title']") ]}
  ];
  details := {|
    details_model := (By_CSS_SELECTOR, "h1[data-testid='search-title']");
    details_year := (By_CSS_SELECTOR, "li[data-testid='spec-year']")
  |}
|}.

Definition confused : site_config := {|
  base_url := "https://www.confused.com/car-insurance/your-car";
  search_flow := [
    {[ "action" := SStr "input";
       "locator" := SLoc (By_ID, "Auto_Reg");
       "keys" := SStr "{registration}" ]};
    {[ "action" := SStr "click";
       "locator" := SLoc (By_ID, "btnGetCarDetails") ]};
    {[ "wait_for" := SLoc (By_CSS_SELECTOR, "div.vehicle-details") ]}
  ];
  details := {|
    details_model := (By_CSS_SELECTOR, "span.vehicle-model");
    details_year := (By_CSS_SELECTOR, "span.vehicle-year")
  |}
|}.

(** The table of sites.  [main] iterates it in insertion order, so it is an
    association list; a Python dictionary holds each key once. *)
Definition WEBSITE_CONFIGS : list (string * site_config) :=
  [ ("motorway", motorway); ("autotrader", autotrader); ("confused", confused) ].

Fixpoint dict_lookup {V} (d : list (string * V)) (k : string) : option V :=
  match d with
  | [] => None
  | (k', v) :: d' => if decide (k' = k) then Some v else dict_lookup d' k
  end.

Definition dict_keys {V} (d : list (string * V)) : list string := d.*1.

(** [CONFIG["TIMEOUT"]] and [CONFIG["RETRIES"]] *)
Definition TIMEOUT : Z := 30.
Definition RETRIES : nat := 2.

(** ** String helpers *)

Definition code (c : ascii) : Z := Z.of_nat (nat_of_ascii c).

(** [str.isspace] on the code points below 256. *)
Definition is_space (c : ascii) : bool :=
  let n := code c in
  ((9 <=? n) && (n <=? 13)) || ((28 <=? n) && (n <=? 32))
  || (n =? 133) || (n =? 160).

Fixpoint lstrip (s : string) : string :=
  match s with
  | EmptyString => EmptyString
  | String c s' => if is_space c then lstrip s' else s
  end.

Fixpoint rstrip (s : string) : string :=
  match s with
  | EmptyString => EmptyString
  | String c s' =>
      match rstrip s' with
      | EmptyString => if is_space c then EmptyString else String c EmptyString
      | r => String c r
      end
  end.

(** [s.strip()] *)
Definition strip (s : string) : string := rstrip (lstrip s).

(** [s.replace(a, b)] for one-character [a] and [b]. *)
Fixpoint replace (a b : ascii) (s : string) : string :=
  match s with
  | EmptyString => EmptyString
  | String c s' => String (if decide (c = a) then b else c) (replace a b s')
  end.

(** [template.format(registration=registration)] for a template whose only
    braces are [{registration}] fields, as all the templates of
    [WEBSITE_CONFIGS] are.  [skip] counts the characters of a field still
    to be passed over. *)
Fixpoint format_from (skip : nat) (template registration : string) : string :=
  match template with
  | EmptyString => EmptyString
  | String c rest =>
      match skip with
      | S k => format_from k rest registration
      | O =>
          if String.prefix "{registration}" template
          then registration +:+ format_from 13 rest registration
          else String c (format_from 0 rest registration)
      end
  end.

Definition format (template registration : string) : string :=
  format_from 0 template registration.

(** ** The retry decorator

    [retry(exceptions, tries, delay, backoff)] of the [retry] package, for
    a non-negative [tries]: call [f]; when it raises one of [exceptions],
    count the attempt, re-raise if none is left, else sleep [delay] and
    multiply it by [backoff].  With [tries = 0] the loop body never runs
    and the call returns [None]. *)
Fixpoint retry {S} `{WebDriver S} {A} (exceptions : exn → bool) (tries : nat)
    (delay backoff : Z) (f : M S A) : M S (option A) :=
  match tries with
  | O => ret None
  | S n =>
      λ s, match f s with
           | Ok a s' => Ok (Some a) s'
           | Raise e s' =>
               if exceptions e then
                 match n with
                 | O => Raise e s'
                 | S _ => retry exceptions n (delay * backoff) backoff f
                            (time_sleep delay s')
                 end
               else Raise e s'
           end
  end.

(** Truth value of what a decorated function returns. *)
Definition truthy (v : option bool) : bool := default false v.

(** ** WebsiteValidator *)

Record WebsiteValidator := {
  config : site_config;
  wait : Z
}.

(** [WebsiteValidator(driver, website_config)] *)
Definition WebsiteValidator_init (website_config : site_config)
    : WebsiteValidator :=
  {| config := website_config; wait := TIMEOUT |}.

Section Validator.
Context {S : Type} `{WebDriver S}.

Definition _execute_action (self : WebsiteValidator) (step : flow_step)
    (registration : string) : M S unit :=
  action ← getitem step "action";
  if decide (action = SStr "input") then
    loc ← getitem step "locator" ≫= as_locator;
    element ← wait_until self.(wait) (element_to_be_clickable loc);
    element_clear element;;
    keys ← getitem step "keys" ≫= as_str;
    element_send_keys element (format keys registration)
  else
    action ← getitem step "action";
    if decide (action = SStr "click") then
      loc ← getitem step "locator" ≫= as_locator;
      element ← wait_until self.(wait) (element_to_be_clickable loc);
      element_click element
    else if decide (is_Some (step !! "wait_for")) then
      loc ← getitem step "wait_for" ≫= as_locator;
      wait_until self.(wait) (presence_of_element_located loc);;
      mret tt
    else mret tt.

(** The body of [search_registration], before decoration. *)
Definition search_registration_body (self : WebsiteValidator)
    (registration : string) : M S bool :=
  try_except
    (driver_get self.(config).(base_url);;
     for_fold self.(config).(search_flow) tt
       (λ step _, _execute_action self step registration);;
     mret true)
    is_WebDriverException
    (λ e, mret false).

(** [@retry(WebDriverException, tries=CONFIG["RETRIES"], delay=2, backoff=2)] *)
Definition search_registration (self : WebsiteValidator)
    (registration : string) : M S (option bool) :=
  retry is_WebDriverException RETRIES 2 2
    (search_registration_body self registration).

Definition get_vehicle_details (self : WebsiteValidator)
    : M S (string * string) :=
  try_except
    (el ← wait_until self.(wait)
            (visibility_of_element_located self.(config).(details).(details_model));
     t ← element_text el;
     let model := strip t in
     el ← wait_until self.(wait)
            (visibility_of_element_located self.(config).(details).(details_year));
     t ← element_text el;
     let year := strip t in
     mret (model, year))
    is_WebDriverException
    (λ _, mret ("Not Found", "N/A")).

End Validator.

(** ** validate_registration and main

    The [logging] calls are left out: they return nothing, raise nothing
    and touch neither the session nor the result. *)

(** The result dictionary: the seven keys it is created with are the only
    ones it ever has. *)
Record validation_result := {
  website : string;
  reg : string;
  exp_model : pyval;
  exp_year : pyval;
  act_model : pyval;
  act_year : pyval;
  status : string
}.

Definition set_expected (r : validation_result) (m y : pyval) : validation_result :=
  {| website := r.(website); reg := r.(reg); exp_model := m; exp_year := y;
     act_model := r.(act_model); act_year := r.(act_year);
     status := r.(status) |}.

(** [result.update({'act_model': m, 'act_year': y, 'status': st})] *)
Definition update_actual (r : validation_result) (m y : pyval) (st : string) : validation_result :=
  {| website := r.(website); reg := r.(reg);
     exp_model := r.(exp_model); exp_year := r.(exp_year);
     act_model := m; act_year := y; status := st |}.

Definition set_status (r : validation_result) (st : string) : validation_result :=
  {| website := r.(website); reg := r.(reg);
     exp_model := r.(exp_model); exp_year := r.(exp_year);
     act_model := r.(act_model); act_year := r.(act_year); status := st |}.

(** [a == b] for a string [a] and any value [b]. *)
Definition str_eq (a : string) (b : pyval) : bool := bool_decide (VStr a = b).

Section Run.
Context {S : Type} `{WebDriver S}.

(** The inner [try] of the handler: a screenshot when the service still
    answers; whatever goes wrong there is dropped. *)
Definition capture_screenshot (website_name reg : string) : M S unit :=
  try_except
    (ok ← service_is_connectable;
     if ok : bool then
       let filename :=
         "error_" +:+ website_name +:+ "_" +:+ replace " " "_" reg +:+ ".png" in
       save_screenshot filename;; mret tt
     else mret tt)
    is_Exception
    (λ _, mret tt).

(** [except Exception as e:] of [validate_registration], then its
    [return result] with the result as it stands. *)
Definition on_exception (website_name reg : string) (result : validation_result)
    : M S validation_result :=
  capture_screenshot website_name reg;; mret result.

(** [configs] is the module-level table [WEBSITE_CONFIGS]; it is an
    argument here so that the statements below cover any table. *)
Definition validate_registration (configs : list (string * site_config))
    (website_name reg : string) (expected_data : gmap string (pyval * pyval))
    : M S validation_result :=
  λ s,
  let result :=
    {| website := website_name; reg := reg;
       exp_model := VStr "N/A"; exp_year := VStr "N/A";
       act_model := VStr "N/A"; act_year := VStr "N/A";
       status := "Error" |} in
  match dict_lookup configs website_name with
  | None => on_exception website_name reg result s
  | Some config =>
      let validator := WebsiteValidator_init config in
      let exp_data := default (VStr "Not Found", VStr "N/A") (expected_data !! reg) in
      let result := set_expected result exp_data.1 exp_data.2 in
      match search_registration validator reg s with
      | Raise e s1 => on_exception website_name reg result s1
      | Ok found s1 =>
          if truthy found then
            match get_vehicle_details validator s1 with
            | Raise e s2 => on_exception website_name reg result s2
            | Ok (act_model, act_year) s2 =>
                Ok (update_actual result (VStr act_model) (VStr act_year)
                      (if str_eq act_model exp_data.1 && str_eq act_year exp_data.2
                       then "Pass" else "Fail")) s2
            end
          else Ok (set_status result "Search Failed") s1
      end
  end.

(** The loops of [main], from the loaded inputs to the list [results]. *)
Definition main (configs : list (string * site_config))
    (input_regs : list string) (expected_data : gmap string (pyval * pyval))
    : M S (list validation_result) :=
  for_fold (dict_keys configs) ([] : list validation_result)
    (λ website results,
       for_fold input_regs results
         (λ reg results,
            result ← validate_registration configs website reg expected_data;
            mret (results ++ [result])%list)).

End Run.

(** ** DataHandler.load_registrations

    [re.findall(CONFIG["INPUT_PATTERN"], content)] for the pattern
    [\b[A-Z]{2}\d{2} [A-Z]{3}\b]. *)

(** [\d] on the code points below 256. *)
Definition is_decimal (c : ascii) : bool :=
  let n := code c in (48 <=? n) && (n <=? 57).

(** A character range [[lo-hi]]. *)
Definition in_range (lo hi c : ascii) : bool :=
  (code lo <=? code c) && (code c <=? code hi).

(** [\w] on the code points below 256: what [str.isalnum] accepts, and
    the underscore. *)
Definition is_word (c : ascii) : bool :=
  let n := code c in
  ((48 <=? n) && (n <=? 57)) || ((65 <=? n) && (n <=? 90)) || (n =? 95)
  || ((97 <=? n) && (n <=? 122))
  || (n =? 170) || (n =? 178) || (n =? 179) || (n =? 181) || (n =? 185)
  || (n =? 186) || ((188 <=? n) && (n <=? 190))
  || ((192 <=? n) && (n <=? 214)) || ((216 <=? n) && (n <=? 246))
  || ((248 <=? n) && (n <=? 255)).

(** The pieces the pattern is made of: each consumes one character, but
    for [\b], which consumes none. *)
Inductive atom :=
| WordBoundary
| Range (lo hi : ascii)
| Decimal
| Lit (c : ascii).

Definition INPUT_PATTERN : list atom :=
  [ WordBoundary; Range "A" "Z"; Range "A" "Z"; Decimal; Decimal; Lit " ";
    Range "A" "Z"; Range "A" "Z"; Range "A" "Z"; WordBoundary ].

Definition atom_matches (a : atom) (c : ascii) : bool :=
  match a with
  | WordBoundary => false
  | Range lo hi => in_range lo hi c
  | Decimal => is_decimal c
  | Lit c' => bool_decide (c = c')
  end.

(** Whether the character on one side of a position is a word character;
    beyond either end of the text there is none. *)
Definition word_at (c : option ascii) : bool := from_option is_word false c.

Definition head_char (s : string) : option ascii :=
  match s with
  | EmptyString => None
  | String c _ => Some c
  end.

(** Match the pattern [p] at the start of [s], with [prev] the character
    before it in the text; the matched text when it matches. *)
Fixpoint match_here (p : list atom) (prev : option ascii) (s : string)
    : option string :=
  match p with
  | [] => Some EmptyString
  | WordBoundary :: p' =>
      if xorb (word_at prev) (word_at (head_char s))
      then match_here p' prev s else None
  | a :: p' =>
      match s with
      | EmptyString => None
      | String c s' =>
          if atom_matches a c
          then String c <$> match_here p' (Some c) s' else None
      end
  end.

(** The scan of [re.findall] for a pattern that consumes at least one
    character: try each position from the left; after a match go on at
    its end ([skip] counts the characters of the match still to pass). *)
Fixpoint findall_from (p : list atom) (skip : nat) (prev : option ascii)
    (s : string) : list string :=
  match s with
  | EmptyString => []
  | String c s' =>
      match skip with
      | S k => findall_from p k (Some c) s'
      | O =>
          match match_here p prev s with
          | Some m => m :: findall_from p (String.length m - 1) (Some c) s'
          | None => findall_from p 0 (Some c) s'
          end
      end
  end.

Definition findall (p : list atom) (s : string) : list string :=
  findall_from p 0 None s.

(** [load_registrations], from the text read from the file. *)
Definition load_registrations (content : string) : list string :=
  findall INPUT_PATTERN content.

(** ** DataHandler.load_expected_data *)

(** A row of the data frame read from the expected-data file.  The key
    column holds registrations, which are text; the two other cells have
    whatever type the reader inferred. *)
Record csv_row := {
  VARIANT_REG : string;
  MAKE_MODEL : pyval;
  YEAR : pyval
}.

(** [str(v)] *)
Definition py_str (v : pyval) : string :=
  match v with
  | VInt z => pretty z
  | VFloat repr => repr
  | VStr s => s
  end.

(** The dictionary comprehension over [df.iterrows()]: a later row with
    the same key replaces the earlier one. *)
Definition load_expected_data (df : list csv_row)
    : gmap string (pyval * pyval) :=
  foldl (λ d row,
           <[ row.(VARIANT_REG) := (row.(MAKE_MODEL), VStr (py_str row.(YEAR))) ]> d)
        ∅ df.

(** ** A scripted browser

    A session double for running the program on concrete inputs: the
    first [get_failures] navigations fail, the page holds the elements
    of [page] (selector and text), and the session remembers how often it
    navigated and how long it was put to sleep. *)
Record mock := {
  get_failures : nat;
  page : list (string * string);
  navigations : nat;
  slept : list Z
}.

Definition mock_get (url : string) : M mock unit :=
  λ s, match s.(get_failures) with
       | O => Ok tt {| get_failures := O; page := s.(page);
                       navigations := Datatypes.S s.(navigations);
                       slept := s.(slept) |}
       | Datatypes.S n =>
           Raise (WebDriverException "net::ERR_CONNECTION_RESET")
             {| get_failures := n; page := s.(page);
                navigations := Datatypes.S s.(navigations);
                slept := s.(slept) |}
       end.

Definition condition_locator (c : condition) : locator :=
  match c with
  | element_to_be_clickable loc
  | presence_of_element_located loc
  | visibility_of_element_located loc => loc
  end.

Definition mock_wait (timeout : Z) (c : condition) : M mock element :=
  λ s, let sel := (condition_locator c).2 in
       match dict_lookup s.(page) sel with
       | Some _ => Ok sel s
       | None => Raise (TimeoutException "") s
       end.

Definition mock_text (el : element) : M mock string :=
  λ s, match dict_lookup s.(page) el with
       | Some t => Ok t s
       | None => Raise (WebDriverException "stale element reference") s
       end.

Definition mock_sleep (d : Z) (s : mock) : mock :=
  {| get_failures := s.(get_failures); page := s.(page);
     navigations := s.(navigations); slept := (s.(slept) ++ [d])%list |}.

Global Instance mock_driver : WebDriver mock := {|
  driver_get := mock_get;
  wait_until := mock_wait;
  element_clear := λ _, ret tt;
  element_send_keys := λ _ _, ret tt;
  element_click := λ _, ret tt;
  element_text := mock_text;
  service_is_connectable := ret true;
  save_screenshot := λ _, ret true;
  time_sleep := mock_sleep
|}.

(** ** Statuses and fixtures *)

(** The four statuses a result row can carry, and the text each is
    written as. *)
Inductive Status := StPass | StFail | StSearchFailed | StError.

Definition status_text (st : Status) : string :=
  match st with
  | StPass => "Pass"
  | StFail => "Fail"
  | StSearchFailed => "Search Failed"
  | StError => "Error"
  end.

(** The motorway flow cut down to its input step. *)
Definition motorway_input_only : site_config := {|
  base_url := motorway.(base_url);
  search_flow := take 1 motorway.(search_flow);
  details := motorway.(details)
|}.

(** A result page of motorway, with the surrounding blanks of its markup. *)
Definition motorway_page : list (string * string) :=
  [ ("input#vrm-input", "");
    ("h1.HeroVehicle__title", " Ford Focus ");
    ("ul.HeroVehicle__details li:first-child", "2019" +:+ newline) ].

(** A session in which everything works. *)
Definition healthy : mock :=
  {| get_failures := 0; page := motorway_page; navigations := 0; slept := [] |}.

(** A session whose first navigation fails and whose later ones work. *)
Definition flaky : mock :=
  {| get_failures := 1; page := motorway_page; navigations := 0; slept := [] |}.

(** A session whose next three navigations all fail. *)
Definition offline : mock :=
  {| get_failures := 3; page := motorway_page; navigations := 0; slept := [] |}.

(** A session whose page has the search box and nothing else. *)
Definition blank : mock :=
  {| get_failures := 0; page := [("input#vrm-input", "")];
     navigations := 0; slept := [] |}.

(** The session after one successful navigation of [healthy]. *)
Definition visited : mock :=
  {| get_failures := 0; page := motorway_page; navigations := 1; slept := [] |}.

(** A table with the cut-down motorway flow, and an expected-data map. *)
Definition demo_configs : list (string * site_config) :=
  [ ("motorway", motorway_input_only) ].

Definition demo_expected : gmap string (pyval * pyval) :=
  {[ "AB12 CDE" := (VStr "Ford Focus", VStr "2019") ]}.

(** One of the two lookups of the field extractor fails: the wait for the
    model element raises a browser exception, or the model is read and
    the wait for the year element raises one. *)
Definition lookup_fails {S : Type} `{WebDriver S} (self : WebsiteValidator)
    (s : S) : Prop :=
  (∃ e s1,
      wait_until self.(wait)
        (visibility_of_element_located self.(config).(details).(details_model)) s
        = Raise e s1
      ∧ is_WebDriverException e = true)
  ∨ (∃ el s1 t s2 e s3,
      wait_until self.(wait)
        (visibility_of_element_located self.(config).(details).(details_model)) s
        = Ok el s1
      ∧ element_text el s1 = Ok t s2
      ∧ wait_until self.(wait)
          (visibility_of_element_located self.(config).(details).(details_year)) s2
          = Raise e s3
      ∧ is_WebDriverException e = true).

(** ** The registration format, as the specification words it *)

(** [^[A-Z]{2}\d{2} [A-Z]{3}$] over the whole of [s]: two letters, two
    digits, a space, three letters, and nothing else. *)
Definition plate_format (s : string) : bool :=
  match s with
  | String a (String b (String c (String d (String e (String f (String g
      (String h EmptyString))))))) =>
      in_range "A" "Z" a && in_range "A" "Z" b
      && is_decimal c && is_decimal d && bool_decide (e = " "%char)
      && in_range "A" "Z" f && in_range "A" "Z" g && in_range "A" "Z" h
  | _ => false
  end.

Fixpoint string_drop (n : nat) (s : string) : string :=
  match n, s with
  | Datatypes.S n', String _ s' => string_drop n' s'
  | _, _ => s
  end.

(** What [INPUT_PATTERN] matches at position [i] of a text that follows
    the character [prev]. *)
Definition occurrence_from (prev : option ascii) (s : string) (i : nat)
    : option string :=
  match_here INPUT_PATTERN
    (match i with O => prev | Datatypes.S j => String.get j s end)
    (string_drop i s).

(** What [INPUT_PATTERN] matches at position [i] of [content]. *)
Definition occurrence_at (content : string) (i : nat) : option string :=
  occurrence_from None content i.

(** No match of [INPUT_PATTERN] starts at any of the first [k] positions. *)
Fixpoint no_match_prefix (k : nat) (prev : option ascii) (s : string) : Prop :=
  match k, s with
  | Datatypes.S k', String c s' =>
      match_here INPUT_PATTERN prev s = None ∧ no_match_prefix k' (Some c) s'
  | _, _ => True
  end.

(** The value stored for a row of the expected-data table. *)
Definition expected_entry (row : csv_row) : pyval * pyval :=
  (row.(MAKE_MODEL), VStr (py_str row.(YEAR))).

(** ** TestReporter.generate_html_report *)

(** [s.replace(a, new)] for a one-character [a]. *)
Fixpoint replace_with (a : ascii) (new : string) (s : string) : string :=
  match s with
  | EmptyString => EmptyString
  | String c s' =>
      if decide (c = a) then new +:+ replace_with a new s'
      else String c (replace_with a new s')
  end.

Definition dquote_char : ascii := "034"%char.
Definition dquote : string := String dquote_char EmptyString.

(** [html.escape(s)] with its default [quote=True]: five replacements,
    the ampersand first. *)
Definition html_escape (s : string) : string :=
  let s := replace_with "&" "&amp;" s in
  let s := replace_with "<" "&lt;" s in
  let s := replace_with ">" "&gt;" s in
  let s := replace_with dquote_char "&quot;" s in
  replace_with "'" "&#x27;" s.

(** [html.escape(v)] for a value of any type: what is not text has no
    [replace] method. *)
Definition escape_value (v : pyval) : exn + string :=
  match v with
  | VStr s => inr (html_escape s)
  | _ => inl (PyException "AttributeError" "replace")
  end.

(** The conditional expression that picks the class of a row. *)
Definition row_class (status : string) : string :=
  if decide (status = "Pass") then "pass"
  else if decide (status = "Fail") then "fail"
  else "warning".

Fixpoint spaces (n : nat) : string :=
  match n with
  | O => EmptyString
  | Datatypes.S n' => String " " (spaces n')
  end.

(** A line break and the indentation of the next line of a literal. *)
Definition indent (n : nat) : string := newline +:+ spaces n.

Definition cell (text : string) : string :=
  indent 16 +:+ "<td>" +:+ text +:+ "</td>".

(** The f-string appended to [rows] for one result; the fields are
    escaped in the order they stand in it. *)
Definition report_row (res : validation_result) : exn + string :=
  match escape_value res.(exp_model) with
  | inl e => inl e
  | inr exp_model' =>
  match escape_value res.(act_model) with
  | inl e => inl e
  | inr act_model' =>
  match escape_value res.(exp_year) with
  | inl e => inl e
  | inr exp_year' =>
  match escape_value res.(act_year) with
  | inl e => inl e
  | inr act_year' =>
      inr (indent 12 +:+ "<tr class=" +:+ dquote +:+ row_class res.(status)
           +:+ dquote +:+ ">"
           +:+ cell (html_escape res.(website))
           +:+ cell (html_escape res.(reg))
           +:+ cell exp_model'
           +:+ cell act_model'
           +:+ cell exp_year'
           +:+ cell act_year'
           +:+ cell res.(status)
           +:+ indent 12 +:+ "</tr>")
  end end end end.

(** The loop that fills [rows]; it stops at the first row that raises. *)
Fixpoint report_rows (results : list validation_result) : exn + list string :=
  match results with
  | [] => inr []
  | res :: results' =>
      match report_row res with
      | inl e => inl e
      | inr row =>
          match report_rows results' with
          | inl e => inl e
          | inr rows => inr (row :: rows)
          end
      end
  end.

(** [sep.join(l)] *)
Fixpoint join (sep : string) (l : list string) : string :=
  match l with
  | [] => EmptyString
  | [x] => x
  | x :: l' => x +:+ sep +:+ join sep l'
  end.

(** [html_content] up to its [{timestamp}] field, as [format] leaves it. *)
Definition report_head : string :=
  "<html><head><title>Car Valuation Test Report</title>"
  +:+ indent 12 +:+ "<style>"
  +:+ indent 16 +:+ "table { border-collapse: collapse; width: 100%; }"
  +:+ indent 16 +:+ "th, td { padding: 8px; text-align: left; border-bottom: 1px solid #ddd; }"
  +:+ indent 16 +:+ "tr:hover { background-color: #f5f5f5; }"
  +:+ indent 16 +:+ ".pass { background-color: #dfffdf; }"
  +:+ indent 16 +:+ ".fail { background-color: #ffe5e5; }"
  +:+ indent 16 +:+ ".warning { background-color: #fff3cd; }"
  +:+ indent 12 +:+ "</style>"
  +:+ indent 12 +:+ "</head><body>"
  +:+ indent 12 +:+ "<h1>Car Valuation Test Report</h1>"
  +:+ indent 12 +:+ "<p>Generated at: ".

(** [html_content] between its [{timestamp}] and [{rows}] fields. *)
Definition report_middle : string :=
  "</p>"
  +:+ indent 12 +:+ "<table>"
  +:+ indent 16 +:+ "<tr>"
  +:+ indent 20 +:+ "<th>Website</th>"
  +:+ indent 20 +:+ "<th>Registration</th>"
  +:+ indent 20 +:+ "<th>Expected Model</th>"
  +:+ indent 20 +:+ "<th>Actual Model</th>"
  +:+ indent 20 +:+ "<th>Expected Year</th>"
  +:+ indent 20 +:+ "<th>Actual Year</th>"
  +:+ indent 20 +:+ "<th>Status</th>"
  +:+ indent 16 +:+ "</tr>"
  +:+ indent 16.

(** [html_content] after its [{rows}] field. *)
Definition report_tail : string :=
  indent 12 +:+ "</table></body></html>".

(** [generate_html_report], as the text it writes to the report file;
    [timestamp] is the formatted time of the call. *)
Definition generate_html_report (results : list validation_result)
    (timestamp : string) : exn + string :=
  match report_rows results with
  | inl e => inl e
  | inr rows =>
      inr (report_head +:+ timestamp +:+ report_middle
           +:+ join newline rows +:+ report_tail)
  end.

(** What [html.escape] makes of one character. *)
Definition escape_char (c : ascii) : string :=
  if decide (c = "&"%char) then "&amp;"
  else if decide (c = "<"%char) then "&lt;"
  else if decide (c = ">"%char) then "&gt;"
  else if decide (c = dquote_char) then "&quot;"
  else if decide (c = "'"%char) then "&#x27;"
  else String c EmptyString.

(** Whether every character of [s] passes the test [p]. *)
Fixpoint all_chars (p : ascii → bool) (s : string) : bool :=
  match s with
  | EmptyString => true
  | String c s' => p c && all_chars p s'
  end.

(** The characters that open or close markup or an attribute value. *)
Definition is_markup (c : ascii) : bool :=
  bool_decide (c = "<"%char) || bool_decide (c = ">"%char)
  || bool_decide (c = dquote_char) || bool_decide (c = "'"%char).

Definition is_text (v : pyval) : Prop := ∃ s, v = VStr s.

(** ** BrowserManager and the whole of main *)

(** What [BrowserManager] asks of the machine: installing the driver
    binary, starting Chrome, setting the implicit wait, quitting. *)
Class ChromeHost (S : Type) := {
  install_chromedriver : M S unit;
  start_chrome : M S unit;
  implicitly_wait : Z → M S unit;
  driver_quit : M S unit
}.

(** The one attribute of a [BrowserManager] that its methods test:
    whether [self.driver] holds a driver. *)
Record BrowserManager := { driver : bool }.

Section Program.
Context {S : Type} `{WebDriver S} `{ChromeHost S}.

Definition BrowserManager__init__ : M S BrowserManager :=
  install_chromedriver;; mret {| driver := false |}.

(** [self.driver] is assigned as soon as Chrome has started; the handler
    logs and re-raises. *)
Definition BrowserManager__enter__ (self : BrowserManager)
    : M S BrowserManager :=
  try_except
    (start_chrome;;
     let self := {| driver := true |} in
     implicitly_wait 10;;
     mret self)
    is_WebDriverException
    (λ e, raise e).

Definition BrowserManager__exit__ (self : BrowserManager) : M S unit :=
  if self.(driver) then driver_quit else mret tt.

(** [with BrowserManager() as driver: body].  [__exit__] runs when
    [__enter__] has returned, on both ways out of the body, and returns
    nothing, so an exception of the body goes on. *)
Definition with_BrowserManager {A} (body : M S A) : M S A :=
  self ← BrowserManager__init__;
  self ← BrowserManager__enter__ self;
  ((λ s, match body s with
         | Ok a s' => (BrowserManager__exit__ self;; mret a) s'
         | Raise e s' => (BrowserManager__exit__ self;; raise e) s'
         end) : M S A).

(** The whole of [main], from the text of the two input files and the
    time of the report to the two outputs: the text of the report and the
    rows handed to [to_csv]. *)
Definition main_program (configs : list (string * site_config))
    (content : string) (df : list csv_row) (timestamp : string)
    : M S (string * list validation_result) :=
  let input_regs := load_registrations content in
  let expected_data := load_expected_data df in
  results ← with_BrowserManager (main configs input_regs expected_data);
  match generate_html_report results timestamp with
  | inl e => raise e
  | inr report => mret (report, results)
  end.

End Program.

(** The scripted browser starts and quits without fail. *)
Global Instance mock_host : ChromeHost mock := {|
  install_chromedriver := ret tt;
  start_chrome := ret tt;
  implicitly_wait := λ _, ret tt;
  driver_quit := ret tt
|}.

(** ** What a well-formed result row is *)

(** A row whose status agrees with its fields: "Pass" with actual fields
    equal to the expected ones, "Fail" with a difference, and the two
    other statuses with the actual fields never filled in. *)
Definition row_consistent (r : validation_result) : Prop :=
  (r.(status) = "Pass" →
     r.(act_model) = r.(exp_model) ∧ r.(act_year) = r.(exp_year))
  ∧ (r.(status) = "Fail" →
     ¬ (r.(act_model) = r.(exp_model) ∧ r.(act_year) = r.(exp_year)))
  ∧ (r.(status) = "Search Failed" ∨ r.(status) = "Error" →
     r.(act_model) = VStr "N/A" ∧ r.(act_year) = VStr "N/A")
  ∧ is_text r.(act_model) ∧ is_text r.(act_year).

(** The lookup [expected_data.get(reg, ("Not Found", "N/A"))]. *)
Definition expected_or_sentinel (expected_data : gmap string (pyval * pyval))
    (plate : string) : pyval * pyval :=
  default (VStr "Not Found", VStr "N/A") (expected_data !! plate).

(** One of the three calls inside the [try] of [validate_registration]
    raises: the lookup of the site, the search, or the extraction. *)
Definition validation_raises {S : Type} `{WebDriver S}
    (configs : list (string * site_config)) (name plate : string) (s : S)
    : Prop :=
  match dict_lookup configs name with
  | None => True
  | Some cfg =>
      (∃ e s1, search_registration (WebsiteValidator_init cfg) plate s
               = Raise e s1)
      ∨ (∃ found s1 e s2,
           search_registration (WebsiteValidator_init cfg) plate s = Ok found s1
           ∧ truthy found = true
           ∧ get_vehicle_details (WebsiteValidator_init cfg) s1 = Raise e s2)
  end.

(** The four fields of a row that the report escapes besides the site
    and the registration are all text. *)
Definition fields_text (r : validation_result) : Prop :=
  is_text r.(exp_model) ∧ is_text r.(act_model)
  ∧ is_text r.(exp_year) ∧ is_text r.(act_year).

(** The browser can be brought up from the state [s]: the driver binary
    is installed, Chrome starts and takes its implicit wait, which leaves
    the state [s'] in which the body of the [with] block begins. *)
Definition browser_starts {S : Type} `{ChromeHost S} (s s' : S) : Prop :=
  ∃ s0 s1, install_chromedriver s = Ok tt s0
           ∧ start_chrome s0 = Ok tt s1
           ∧ implicitly_wait 10 s1 = Ok tt s'.

(** Quitting the browser never fails. *)
Definition quit_succeeds (S : Type) `{ChromeHost S} : Prop :=
  ∀ s : S, ∃ s', driver_quit s = Ok tt s'.

(** An input text with one registration, a table that holds it, and the
    same table with the model cell left empty (read as NaN). *)
Definition demo_content : string := "Vehicle AB12 CDE was seen".

Definition demo_table : list csv_row :=
  [ {| VARIANT_REG := "AB12 CDE"; MAKE_MODEL := VStr "Ford Focus";
       YEAR := VInt 2019 |} ].

Definition demo_table_nan : list csv_row :=
  [ {| VARIANT_REG := "AB12 CDE"; MAKE_MODEL := VFloat "nan";
       YEAR := VInt 2019 |} ].

(** The last character of a text, if it has one. *)
Fixpoint last_char (s : string) : option ascii :=
  match s with
  | EmptyString => None
  | String c EmptyString => Some c
  | String _ s' => last_char s'
  end.

(** A character, when there is one, is not white space. *)
Definition not_space_at (c : option ascii) : bool :=
  from_option (λ c, negb (is_space c)) true c.


(** * Properties *)

Ltac unfold_M :=
  unfold mbind, M_bind, mret, M_ret, bind, ret, raise, try_except in *.

(** ** The retry decorator around a body that handles its own failures *)

Section RetryFacts.
Context {S : Type} `{WebDriver S}.

(** A wrapped call that raises none of the retried exceptions is made
    once: nothing is slept, nothing is called again. *)
Lemma retry_single {A} (exceptions : exn → bool) (n : nat) (delay backoff : Z)
    (f : M S A) (s : S) :
  (∀ e s', f s = Raise e s' → exceptions e = false) →
  retry exceptions (Datatypes.S n) delay backoff f s =
    match f s with
    | Ok a s' => Ok (Some a) s'
    | Raise e s' => Raise e s'
    end.
Proof.
  intros Hf. simpl. destruct (f s) as [a s'|e s'] eqn:E; [done|].
  by rewrite (Hf e s').
Qed.

Lemma search_registration_body_handles (self : WebsiteValidator)
    (registration : string) (s s' : S) (e : exn) :
  search_registration_body self registration s = Raise e s' →
  is_WebDriverException e = false.
Proof.
  unfold search_registration_body, try_except.
  match goal with |- context [match ?b s with _ => _ end] => destruct (b s) as [a s1|e1 s1] end.
  - discriminate.
  - destruct (is_WebDriverException e1) eqn:E.
    + discriminate.
    + intros [= <- <-]. exact E.
Qed.

(** [search_registration] is one run of its body. *)
Lemma search_registration_single (self : WebsiteValidator)
    (registration : string) (s : S) :
  search_registration self registration s =
    match search_registration_body self registration s with
    | Ok b s' => Ok (Some b) s'
    | Raise e s' => Raise e s'
    end.
Proof.
  unfold search_registration, RETRIES. apply retry_single.
  intros e s'. apply search_registration_body_handles.
Qed.

Lemma getitem_missing {V} (d : gmap string V) (k : string) (s : S) :
  d !! k = None → getitem d k s = Raise (KeyError k) s.
Proof. intros E. unfold getitem. by rewrite E. Qed.

(** A step dictionary without an ["action"] key stops [_execute_action]
    at its first test, before the browser is asked anything. *)
Lemma execute_action_without_action (self : WebsiteValidator) (st : flow_step)
    (registration : string) (s : S) :
  st !! "action" = None →
  _execute_action self st registration s = Raise (KeyError "action") s.
Proof.
  intros E. unfold _execute_action. unfold_M.
  by rewrite (getitem_missing _ _ _ E).
Qed.

Lemma on_exception_returns (website_name reg : string)
    (r : validation_result) (s : S) :
  ∃ s', on_exception website_name reg r s = Ok r s'.
Proof.
  unfold on_exception, capture_screenshot. unfold_M.
  destruct (service_is_connectable s) as [[|] s1|e s1]; simpl; eauto.
  destruct (save_screenshot _ s1) as [b s2|e s2]; simpl; eauto.
Qed.

End RetryFacts.

(** ** Flow executor *)

(** C1 (the code departs from the claim): every [wait_for] step of the
    three shipped flows makes [_execute_action] raise [KeyError('action')]
    at once, in any session and before any wait is started; the step has
    no ["action"] key and the first test of the function reads it. *)
Theorem wait_for_step_raises_KeyError {S : Type} `{WebDriver S}
    (self : WebsiteValidator) (registration : string) (s : S) :
  Forall (λ site : string * site_config,
    Forall (λ st : flow_step,
      is_Some (st !! "wait_for") →
      _execute_action self st registration s = Raise (KeyError "action") s)
      site.2.(search_flow))
    WEBSITE_CONFIGS.
Proof.
  unfold WEBSITE_CONFIGS, motorway, autotrader, confused; simpl.
  repeat first [ apply Forall_nil_2 | apply Forall_cons_2 ]; intros Hw;
    solve [ apply execute_action_without_action; by vm_compute
          | destruct Hw as [v Hv]; by vm_compute in Hv ].
Qed.

(** On a page that already holds the awaited element, where the wait would
    return at once, the last step of the motorway flow still raises. *)
Example wait_for_step_on_ready_page :
  wait_until TIMEOUT
    (presence_of_element_located (By_CSS_SELECTOR, "h1.HeroVehicle__title"))
    healthy = Ok "h1.HeroVehicle__title" healthy
  ∧ _execute_action (WebsiteValidator_init motorway)
      {[ "wait_for" := SLoc (By_CSS_SELECTOR, "h1.HeroVehicle__title") ]}
      "AB12 CDE" healthy = Raise (KeyError "action") healthy.
Proof. split; reflexivity. Qed.

(** C2 (the code departs from the claim): with a session whose first
    navigation fails and whose next would work, [search_registration]
    returns [False] after that one navigation, having slept for no delay,
    although a second run of its body from there returns [True]; and with
    a session whose navigations keep failing, the shipped motorway flow is
    tried once, not [RETRIES + 1] times. *)
Theorem search_registration_gives_up_at_first_failure :
  ∃ s1 s2 s3 : mock,
    search_registration (WebsiteValidator_init motorway_input_only)
      "AB12 CDE" flaky = Ok (Some false) s1
    ∧ s1.(navigations) = 1%nat
    ∧ s1.(slept) = []
    ∧ search_registration_body (WebsiteValidator_init motorway_input_only)
        "AB12 CDE" s1 = Ok true s2
    ∧ search_registration (WebsiteValidator_init motorway) "AB12 CDE" offline
        = Ok (Some false) s3
    ∧ s3.(navigations) = 1%nat
    ∧ s3.(slept) = [].
Proof. eexists _, _, _. vm_compute. repeat split. Qed.

(** Were a browser exception to reach the decorator, [tries = RETRIES]
    would allow two calls in all, one sleep of 2 between them, and then
    re-raise. *)
Example retry_allows_two_calls :
  ∃ s1 : mock,
    retry is_WebDriverException RETRIES 2 2 (driver_get "https://motorway.co.uk/")
      offline = Raise (WebDriverException "net::ERR_CONNECTION_RESET") s1
    ∧ s1.(navigations) = 2%nat
    ∧ s1.(slept) = [2].
Proof. eexists. vm_compute. repeat split. Qed.

(** ** Validator *)

Section ValidatorFacts.
Context {S : Type} `{WebDriver S}.
Implicit Types (configs : list (string * site_config)).
Implicit Types (expected_data : gmap string (pyval * pyval)).

(** Whatever the session does, [validate_registration] returns a row for
    the site and registration it was called with. *)
Lemma validate_registration_returns configs (name plate : string)
    expected_data (s : S) :
  ∃ r s', validate_registration configs name plate expected_data s = Ok r s'
          ∧ r.(website) = name ∧ r.(reg) = plate.
Proof.
  unfold validate_registration.
  destruct (dict_lookup configs name) as [cfg|].
  - destruct (search_registration _ plate s) as [found s1|e s1].
    + destruct (truthy found).
      * destruct (get_vehicle_details _ s1) as [[m y] s2|e s2].
        -- eauto.
        -- edestruct on_exception_returns as [s3 ->]. eauto.
      * eauto.
    + edestruct on_exception_returns as [s3 ->]. eauto.
  - edestruct on_exception_returns as [s3 ->]. eauto.
Qed.

Lemma registrations_loop configs (name : string) (plates : list string)
    expected_data (results : list validation_result) (s : S) :
  ∃ rs s',
    for_fold plates results
      (λ plate results,
         result ← validate_registration configs name plate expected_data;
         mret (results ++ [result])%list) s = Ok (results ++ rs)%list s'
    ∧ (λ r, (r.(website), r.(reg))) <$> rs = pair name <$> plates.
Proof.
  revert results s. induction plates as [|plate plates IH]; intros results s.
  - exists [], s. simpl. by rewrite app_nil_r.
  - simpl. unfold_M.
    destruct (validate_registration_returns configs name plate expected_data s)
      as (r & s1 & -> & Hw & Hr).
    destruct (IH (results ++ [r])%list s1) as (rs & s2 & -> & Hrs).
    exists (r :: rs), s2. split.
    + by rewrite <- app_assoc.
    + by rewrite !fmap_cons, Hw, Hr, Hrs.
Qed.

Lemma sites_loop configs (names plates : list string) expected_data
    (results : list validation_result) (s : S) :
  ∃ rs s',
    for_fold names results
      (λ website results,
         for_fold plates results
           (λ plate results,
              result ← validate_registration configs website plate expected_data;
              mret (results ++ [result])%list)) s = Ok (results ++ rs)%list s'
    ∧ (λ r, (r.(website), r.(reg))) <$> rs = list_prod names plates.
Proof.
  revert results s. induction names as [|name names IH]; intros results s.
  - exists [], s. simpl. by rewrite app_nil_r.
  - simpl. unfold mbind at 1, M_bind at 1, bind at 1.
    destruct (registrations_loop configs name plates expected_data results s)
      as (rs1 & s1 & -> & H1).
    destruct (IH (results ++ rs1)%list s1) as (rs2 & s2 & -> & H2).
    exists (rs1 ++ rs2)%list, s2. split.
    + by rewrite <- app_assoc.
    + by rewrite fmap_app, H1, H2.
Qed.

End ValidatorFacts.

(** C3: for any table of sites, any registrations and any session, the
    loops of [main] end with a list of rows, one per pair of the product
    of the sites (in table order) and the registrations (in load order),
    in that order, so of length #sites * #registrations; no exception of
    the session ends the run. *)
Theorem main_one_result_per_pair {S : Type} `{WebDriver S}
    (configs : list (string * site_config)) (input_regs : list string)
    (expected_data : gmap string (pyval * pyval)) (s : S) :
  ∃ results s',
    main configs input_regs expected_data s = Ok results s'
    ∧ (λ r, (r.(website), r.(reg))) <$> results
        = list_prod (dict_keys configs) input_regs
    ∧ length results = (length configs * length input_regs)%nat.
Proof.
  unfold main.
  destruct (sites_loop configs (dict_keys configs) input_regs expected_data [] s)
    as (rs & s' & Hrun & Hkeys).
  exists rs, s'. split; [exact Hrun|]. split; [exact Hkeys|].
  rewrite <- (length_fmap (λ r, (r.(website), r.(reg))) rs), Hkeys.
  rewrite length_prod. unfold dict_keys. by rewrite length_fmap.
Qed.

(** ** Trimming *)

Lemma lstrip_head (s : string) :
  lstrip s = EmptyString ∨ ∃ c s', lstrip s = String c s' ∧ is_space c = false.
Proof.
  induction s as [|c s IH]; simpl; [by left|].
  destruct (is_space c) eqn:E; [exact IH|]. right. eauto.
Qed.

Lemma lstrip_fixed (c : ascii) (s : string) :
  is_space c = false → lstrip (String c s) = String c s.
Proof. intros E. simpl. by rewrite E. Qed.

Lemma rstrip_head (c : ascii) (s : string) :
  is_space c = false → ∃ s', rstrip (String c s) = String c s'.
Proof. intros E. simpl. rewrite E. destruct (rstrip s); eauto. Qed.

Lemma rstrip_idempotent (s : string) : rstrip (rstrip s) = rstrip s.
Proof.
  induction s as [|c s IH]; simpl; [done|].
  destruct (rstrip s) as [|d r] eqn:E.
  - destruct (is_space c) eqn:Ec; simpl; [done|]. by rewrite Ec.
  - change (rstrip (String c (String d r))) with
      (match rstrip (String d r) with
       | EmptyString => if is_space c then EmptyString else String c EmptyString
       | r' => String c r'
       end).
    by rewrite IH.
Qed.

(** Trimming a trimmed text changes nothing. *)
Lemma strip_idempotent (s : string) : strip (strip s) = strip s.
Proof.
  unfold strip. destruct (lstrip_head s) as [->|(c & s' & -> & Ec)]; [done|].
  destruct (rstrip_head c s' Ec) as [r Hr]. rewrite Hr.
  rewrite (lstrip_fixed c r Ec), <- Hr. apply rstrip_idempotent.
Qed.

Section ExtractorFacts.
Context {S : Type} `{WebDriver S}.

(** What [get_vehicle_details] returns is trimmed text. *)
Lemma get_vehicle_details_trimmed (self : WebsiteValidator) (m y : string)
    (s s' : S) :
  get_vehicle_details self s = Ok (m, y) s' → strip m = m ∧ strip y = y.
Proof.
  unfold get_vehicle_details. unfold_M.
  destruct (wait_until _ _ s) as [el1 s1|e s1]; simpl.
  2: { destruct (is_WebDriverException e); [|done]. by intros [= <- <- _]. }
  destruct (element_text el1 s1) as [t1 s2|e s2]; simpl.
  2: { destruct (is_WebDriverException e); [|done]. by intros [= <- <- _]. }
  destruct (wait_until _ _ s2) as [el2 s3|e s3]; simpl.
  2: { destruct (is_WebDriverException e); [|done]. by intros [= <- <- _]. }
  destruct (element_text el2 s3) as [t2 s4|e s4]; simpl.
  2: { destruct (is_WebDriverException e); [|done]. by intros [= <- <- _]. }
  intros [= <- <- _]. split; apply strip_idempotent.
Qed.

End ExtractorFacts.

(** C7: when one of the two lookups of [get_vehicle_details] fails with a
    browser exception (a timeout is one), the call returns the pair
    ("Not Found", "N/A") and raises nothing. *)
Theorem failed_lookup_gives_sentinel {S : Type} `{WebDriver S}
    (self : WebsiteValidator) (s : S) :
  lookup_fails self s →
  ∃ s', get_vehicle_details self s = Ok ("Not Found", "N/A") s'.
Proof.
  intros [(e & s1 & Hm & He)|(el & s1 & t & s2 & e & s3 & Hm & Ht & Hy & He)];
    unfold get_vehicle_details; unfold_M.
  - rewrite Hm, He. eauto.
  - rewrite Hm. simpl. rewrite Ht. simpl. rewrite Hy, He. eauto.
Qed.

Lemma failed_lookup_gives_sentinel_witness :
  ∃ s', get_vehicle_details (WebsiteValidator_init motorway) blank
        = Ok ("Not Found", "N/A") s'.
Proof.
  apply (failed_lookup_gives_sentinel (WebsiteValidator_init motorway) blank).
  left. exists (TimeoutException ""), blank. split; reflexivity.
Defined.

Lemma str_eq_spec (a : string) (b : pyval) : str_eq a b = true ↔ VStr a = b.
Proof. unfold str_eq. apply bool_decide_eq_true. Qed.

Lemma status_text_inj (st st' : Status) :
  status_text st = status_text st' → st = st'.
Proof. by destruct st, st'. Qed.

Section ExtractorReads.
Context {S : Type} `{WebDriver S}.

(** When both elements are found and read, [get_vehicle_details] returns
    the two texts of the page, each trimmed. *)
Lemma get_vehicle_details_reads (self : WebsiteValidator)
    (el1 el2 : element) (t1 t2 : string) (s sa sb sc sd : S) :
  wait_until self.(wait)
    (visibility_of_element_located self.(config).(details).(details_model)) s
    = Ok el1 sa →
  element_text el1 sa = Ok t1 sb →
  wait_until self.(wait)
    (visibility_of_element_located self.(config).(details).(details_year)) sb
    = Ok el2 sc →
  element_text el2 sc = Ok t2 sd →
  get_vehicle_details self s = Ok (strip t1, strip t2) sd.
Proof.
  intros H1 H2 H3 H4. unfold get_vehicle_details. unfold_M.
  rewrite H1. simpl. rewrite H2. simpl. rewrite H3. simpl. by rewrite H4.
Qed.

End ExtractorReads.

(** C4: when the search returns true and the extraction yields the texts
    [m] and [y] (the texts of the page, trimmed), the row carries them as
    actual fields, carries as expected fields what the expected-data map
    holds for the registration (or the pair "Not Found", "N/A"), and its
    status is "Pass" exactly when [m] is that expected model and [y] that
    expected year, by equality of the texts as they are, and "Fail"
    otherwise. *)
Theorem classification_pass_iff_equal {S : Type} `{WebDriver S}
    (configs : list (string * site_config)) (name plate : string)
    (expected_data : gmap string (pyval * pyval)) (cfg : site_config)
    (found : option bool) (m y : string) (s s1 s2 : S) :
  dict_lookup configs name = Some cfg →
  search_registration (WebsiteValidator_init cfg) plate s = Ok found s1 →
  truthy found = true →
  get_vehicle_details (WebsiteValidator_init cfg) s1 = Ok (m, y) s2 →
  ∃ r, validate_registration configs name plate expected_data s = Ok r s2
    ∧ r.(act_model) = VStr m ∧ r.(act_year) = VStr y
    ∧ strip m = m ∧ strip y = y
    ∧ r.(exp_model) = (expected_or_sentinel expected_data plate).1
    ∧ r.(exp_year) = (expected_or_sentinel expected_data plate).2
    ∧ (r.(status) = "Pass"
       ↔ VStr m = (expected_or_sentinel expected_data plate).1
         ∧ VStr y = (expected_or_sentinel expected_data plate).2)
    ∧ (∀ em ey, expected_data !! plate = Some (em, ey) →
         (r.(status) = "Pass" ↔ VStr m = em ∧ VStr y = ey))
    ∧ (r.(status) = "Pass" ↔ VStr m = r.(exp_model) ∧ VStr y = r.(exp_year))
    ∧ (r.(status) ≠ "Pass" → r.(status) = "Fail")
    ∧ (∀ el1 el2 t1 t2 sa sb sc sd,
         wait_until TIMEOUT
           (visibility_of_element_located cfg.(details).(details_model)) s1
           = Ok el1 sa →
         element_text el1 sa = Ok t1 sb →
         wait_until TIMEOUT
           (visibility_of_element_located cfg.(details).(details_year)) sb
           = Ok el2 sc →
         element_text el2 sc = Ok t2 sd →
         m = strip t1 ∧ y = strip t2).
Proof.
  intros Hcfg Hsearch Hfound Hget.
  destruct (get_vehicle_details_trimmed _ _ _ _ _ Hget) as [Hm Hy].
  assert (Hiff : ∀ em ey,
            (if str_eq m em && str_eq y ey then "Pass" else "Fail") = "Pass"
            ↔ VStr m = em ∧ VStr y = ey).
  { intros em ey. split.
    - destruct (str_eq m em) eqn:Em; [|done].
      destruct (str_eq y ey) eqn:Ey; [|done].
      intros _. split; by apply str_eq_spec.
    - intros [Em Ey]. apply str_eq_spec in Em, Ey. by rewrite Em, Ey. }
  unfold validate_registration, expected_or_sentinel.
  rewrite Hcfg, Hsearch, Hfound, Hget.
  eexists. split; [reflexivity|]. simpl.
  split_and!; try done.
  - intros em ey He. rewrite He. simpl. apply Hiff.
  - by destruct (str_eq m _ && str_eq y _).
  - intros el1 el2 t1 t2 sa sb sc sd H1 H2 H3 H4.
    pose proof (get_vehicle_details_reads (WebsiteValidator_init cfg)
                  el1 el2 t1 t2 s1 sa sb sc sd H1 H2 H3 H4) as Hread.
    rewrite Hget in Hread. by injection Hread as -> -> _.
Qed.

Lemma classification_pass_iff_equal_witness :
  ∃ r, validate_registration demo_configs "motorway" "AB12 CDE" demo_expected
         healthy = Ok r visited
    ∧ r.(status) = "Pass"
    ∧ r.(exp_model) = VStr "Ford Focus" ∧ r.(exp_year) = VStr "2019"
    ∧ r.(act_model) = VStr "Ford Focus" ∧ r.(act_year) = VStr "2019"
    ∧ "Ford Focus" = strip " Ford Focus " ∧ "2019" = strip ("2019" +:+ newline).
Proof.
  destruct (classification_pass_iff_equal demo_configs "motorway" "AB12 CDE"
              demo_expected motorway_input_only (Some true) "Ford Focus" "2019"
              healthy visited visited)
    as (r & Hrun & Ham & Hay & _ & _ & Hem & Hey & Hpass & _ & _ & _ & Hread);
    [reflexivity..|].
  exists r. split_and!; [exact Hrun| |exact Hem|exact Hey|exact Ham|exact Hay|..].
  - apply Hpass. split; reflexivity.
  - apply (Hread "h1.HeroVehicle__title"
             "ul.HeroVehicle__details li:first-child"
             " Ford Focus " ("2019" +:+ newline)
             visited visited visited visited); reflexivity.
  - apply (Hread "h1.HeroVehicle__title"
             "ul.HeroVehicle__details li:first-child"
             " Ford Focus " ("2019" +:+ newline)
             visited visited visited visited); reflexivity.
Defined.

(** The comparison tells upper case from lower case, and one differing
    field is enough for "Fail". *)
Example classification_tells_case_and_field :
  (∃ r, validate_registration demo_configs "motorway" "AB12 CDE"
          {[ "AB12 CDE" := (VStr "FORD FOCUS", VStr "2019") ]} healthy
        = Ok r visited ∧ r.(status) = "Fail")
  ∧ (∃ r, validate_registration demo_configs "motorway" "AB12 CDE"
            {[ "AB12 CDE" := (VStr "Ford Focus", VStr "2020") ]} healthy
          = Ok r visited ∧ r.(status) = "Fail")
  ∧ (∃ r, validate_registration demo_configs "motorway" "AB12 CDE"
            {[ "AB12 CDE" := (VStr "Ford Focus", VInt 2019) ]} healthy
          = Ok r visited ∧ r.(status) = "Fail").
Proof. split_and!; eexists; split; reflexivity. Qed.

(** C5: every call of [validate_registration] returns a row whose status
    is the text of exactly one of the four statuses; and when the search
    returns false, that status is "Search Failed" and both actual fields
    are still "N/A". *)
Theorem status_is_one_of_four {S : Type} `{WebDriver S}
    (configs : list (string * site_config)) (name plate : string)
    (expected_data : gmap string (pyval * pyval)) (s : S) :
  ∃ r s', validate_registration configs name plate expected_data s = Ok r s'
    ∧ (∃ st, r.(status) = status_text st
             ∧ ∀ st', r.(status) = status_text st' → st' = st)
    ∧ (∀ cfg found s1,
         dict_lookup configs name = Some cfg →
         search_registration (WebsiteValidator_init cfg) plate s = Ok found s1 →
         truthy found = false →
         r.(status) = status_text StSearchFailed
         ∧ r.(act_model) = VStr "N/A" ∧ r.(act_year) = VStr "N/A").
Proof.
  assert (Hone : ∀ (r : validation_result) st, r.(status) = status_text st →
            ∃ st0, r.(status) = status_text st0
                   ∧ ∀ st', r.(status) = status_text st' → st' = st0).
  { intros r st E. exists st. split; [done|]. intros st' E'.
    apply status_text_inj. by rewrite <- E, <- E'. }
  unfold validate_registration.
  destruct (dict_lookup configs name) as [cfg|].
  - destruct (search_registration _ plate s) as [found s1|e s1] eqn:Hs.
    + destruct (truthy found) eqn:Hf.
      * destruct (get_vehicle_details _ s1) as [[m y] s2|e s2].
        -- eexists _, _. split; [reflexivity|]. split.
           ++ destruct (str_eq m _ && str_eq y _);
                [by apply (Hone _ StPass)|by apply (Hone _ StFail)].
           ++ intros cfg' found' s1' [= <-]. rewrite Hs. intros [= <- <-].
              by rewrite Hf.
        -- edestruct on_exception_returns as [s3 ->].
           eexists _, _. split; [reflexivity|]. split.
           ++ by apply (Hone _ StError).
           ++ intros cfg' found' s1' [= <-]. rewrite Hs. intros [= <- <-].
              by rewrite Hf.
      * eexists _, _. split; [reflexivity|]. split.
        -- by apply (Hone _ StSearchFailed).
        -- done.
    + edestruct on_exception_returns as [s3 ->].
      eexists _, _. split; [reflexivity|]. split.
      * by apply (Hone _ StError).
      * intros cfg' found' s1' [= <-]. by rewrite Hs.
  - edestruct on_exception_returns as [s3 ->].
    eexists _, _. split; [reflexivity|]. split.
    + by apply (Hone _ StError).
    + done.
Qed.

Lemma status_is_one_of_four_witness :
  ∃ r s', validate_registration WEBSITE_CONFIGS "motorway" "AB12 CDE" ∅ flaky
            = Ok r s'
    ∧ r.(status) = "Search Failed"
    ∧ r.(act_model) = VStr "N/A" ∧ r.(act_year) = VStr "N/A".
Proof.
  destruct (status_is_one_of_four WEBSITE_CONFIGS "motorway" "AB12 CDE" ∅ flaky)
    as (r & s' & Hrun & _ & Hfalse).
  exists r, s'. split; [exact Hrun|].
  apply (Hfalse motorway (Some false) visited); reflexivity.
Defined.

(** C8: for a registration that the expected-data map does not hold (and a
    site of the table), the row's expected fields are "Not Found" and
    "N/A"; and when the search returns true and the extraction yields [m]
    and [y], the status is "Pass" if they are exactly those two texts and
    "Fail" if not. *)
Theorem missing_expected_uses_sentinel {S : Type} `{WebDriver S}
    (configs : list (string * site_config)) (name plate : string)
    (expected_data : gmap string (pyval * pyval)) (cfg : site_config) (s : S) :
  expected_data !! plate = None →
  dict_lookup configs name = Some cfg →
  ∃ r s', validate_registration configs name plate expected_data s = Ok r s'
    ∧ r.(exp_model) = VStr "Not Found" ∧ r.(exp_year) = VStr "N/A"
    ∧ (∀ found s1 m y s2,
         search_registration (WebsiteValidator_init cfg) plate s = Ok found s1 →
         truthy found = true →
         get_vehicle_details (WebsiteValidator_init cfg) s1 = Ok (m, y) s2 →
         (m = "Not Found" ∧ y = "N/A" → r.(status) = "Pass")
         ∧ (¬ (m = "Not Found" ∧ y = "N/A") → r.(status) = "Fail")).
Proof.
  intros Hmiss Hcfg. unfold validate_registration. rewrite Hcfg, Hmiss. simpl.
  destruct (search_registration _ plate s) as [found s1|e s1] eqn:Hs.
  - destruct (truthy found) eqn:Hf.
    + destruct (get_vehicle_details _ s1) as [[m y] s2|e s2] eqn:Hg.
      * eexists _, _. split; [reflexivity|]. split_and!; try done.
        intros found' s1' m' y' s2' [= <- <-] _. rewrite Hg. intros [= <- <- <-].
        simpl. split.
        -- by intros [-> ->].
        -- intros Hne.
           destruct (str_eq m _) eqn:Em; [|done].
           destruct (str_eq y _) eqn:Ey; [|done].
           apply str_eq_spec in Em, Ey. destruct Hne. split; congruence.
      * edestruct on_exception_returns as [s3 ->].
        eexists _, _. split; [reflexivity|]. split_and!; try done.
        intros found' s1' m' y' s2' [= <- <-] _. by rewrite Hg.
    + eexists _, _. split; [reflexivity|]. split_and!; try done.
      intros found' s1' m' y' s2' [= <- <-]. by rewrite Hf.
  - edestruct on_exception_returns as [s3 ->].
    eexists _, _. split; [reflexivity|]. split_and!; done.
Qed.

Lemma missing_expected_uses_sentinel_witness :
  ∃ r s', validate_registration demo_configs "motorway" "XX99 ZZZ" demo_expected
            healthy = Ok r s'
    ∧ r.(exp_model) = VStr "Not Found" ∧ r.(exp_year) = VStr "N/A"
    ∧ r.(status) = "Fail".
Proof.
  destruct (missing_expected_uses_sentinel demo_configs "motorway" "XX99 ZZZ"
              demo_expected motorway_input_only healthy)
    as (r & s' & Hrun & Hm & Hy & Hcls); [reflexivity..|].
  exists r, s'. split_and!; [exact Hrun|exact Hm|exact Hy|].
  apply (Hcls (Some true) visited "Ford Focus" "2019" visited);
    [reflexivity..|].
  intros [E _]. discriminate E.
Defined.

(** C9: every call of [validate_registration] returns a row, whatever was
    raised underneath; and in a row whose status is "Error" both actual
    fields are the text "N/A" they were created with. *)
Theorem error_row_keeps_placeholders {S : Type} `{WebDriver S}
    (configs : list (string * site_config)) (name plate : string)
    (expected_data : gmap string (pyval * pyval)) (s : S) :
  ∃ r s', validate_registration configs name plate expected_data s = Ok r s'
    ∧ (r.(status) = "Error" →
       r.(act_model) = VStr "N/A" ∧ r.(act_year) = VStr "N/A").
Proof.
  unfold validate_registration.
  destruct (dict_lookup configs name) as [cfg|].
  - destruct (search_registration _ plate s) as [found s1|e s1].
    + destruct (truthy found).
      * destruct (get_vehicle_details _ s1) as [[m y] s2|e s2].
        -- eexists _, _. split; [reflexivity|]. simpl.
           by destruct (str_eq m _ && str_eq y _).
        -- edestruct on_exception_returns as [s3 ->]. by eexists _, _.
      * eexists _, _. split; [reflexivity|]. done.
    + edestruct on_exception_returns as [s3 ->]. by eexists _, _.
  - edestruct on_exception_returns as [s3 ->]. by eexists _, _.
Qed.

Lemma error_row_keeps_placeholders_witness :
  ∃ r s', validate_registration WEBSITE_CONFIGS "motorway" "AB12 CDE"
            demo_expected healthy = Ok r s'
    ∧ r.(status) = "Error"
    ∧ r.(act_model) = VStr "N/A" ∧ r.(act_year) = VStr "N/A".
Proof.
  destruct (error_row_keeps_placeholders WEBSITE_CONFIGS "motorway" "AB12 CDE"
              demo_expected healthy) as (r & s' & Hrun & Herr).
  exists r, s'. split; [exact Hrun|].
  assert (Hst : r.(status) = "Error").
  { vm_compute in Hrun. by injection Hrun as <- _. }
  split; [exact Hst|]. exact (Herr Hst).
Defined.

(** ** Loading the registrations *)

Ltac by_ascii c :=
  destruct c as [[|] [|] [|] [|] [|] [|] [|] [|]]; vm_compute; congruence.

Lemma upper_is_word (c : ascii) : in_range "A" "Z" c = true → is_word c = true.
Proof. by_ascii c. Qed.

Lemma decimal_is_word (c : ascii) : is_decimal c = true → is_word c = true.
Proof. by_ascii c. Qed.

Lemma upper_not_decimal (c : ascii) :
  in_range "A" "Z" c = true → is_decimal c = false.
Proof. by_ascii c. Qed.

(** A match of the pattern is eight characters of the registration
    format, with no word character on either side. *)
Lemma match_here_inv (prev : option ascii) (s m : string) :
  match_here INPUT_PATTERN prev s = Some m →
  ∃ a b c d f g h rest,
    s = String a (String b (String c (String d (String " " (String f
          (String g (String h rest)))))))
    ∧ m = String a (String b (String c (String d (String " " (String f
            (String g (String h EmptyString)))))))
    ∧ in_range "A" "Z" a = true ∧ in_range "A" "Z" b = true
    ∧ is_decimal c = true ∧ is_decimal d = true
    ∧ in_range "A" "Z" f = true ∧ in_range "A" "Z" g = true
    ∧ in_range "A" "Z" h = true
    ∧ word_at prev = false ∧ word_at (head_char rest) = false.
Proof.
  unfold INPUT_PATTERN. simpl.
  destruct (xorb (word_at prev) (word_at (head_char s))) eqn:Hb; [|done].
  destruct s as [|a s]; [done|].
  destruct (in_range "A" "Z" a) eqn:Ha; [|done].
  destruct s as [|b s]; [done|]. simpl.
  destruct (in_range "A" "Z" b) eqn:Hb2; [|done].
  destruct s as [|c s]; [done|]. simpl.
  destruct (is_decimal c) eqn:Hc; [|done].
  destruct s as [|d s]; [done|]. simpl.
  destruct (is_decimal d) eqn:Hd; [|done].
  destruct s as [|e s]; [done|]. simpl.
  case_bool_decide as He; [subst e|done].
  destruct s as [|f s]; [done|]. simpl.
  destruct (in_range "A" "Z" f) eqn:Hf; [|done].
  destruct s as [|g s]; [done|]. simpl.
  destruct (in_range "A" "Z" g) eqn:Hg; [|done].
  destruct s as [|h s]; [done|]. simpl.
  destruct (in_range "A" "Z" h) eqn:Hh; [|done].
  destruct (xorb (is_word h) (word_at (head_char s))) eqn:He; [|done].
  simpl. intros [= <-]. exists a, b, c, d, f, g, h, s.
  simpl in Hb. rewrite (upper_is_word a Ha) in Hb.
  rewrite (upper_is_word h Hh) in He.
  split_and!; try done.
  - by destruct (word_at prev).
  - by destruct (word_at (head_char s)).
Qed.

Lemma match_here_format (prev : option ascii) (s m : string) :
  match_here INPUT_PATTERN prev s = Some m →
  plate_format m = true ∧ m = substring 0 8 s.
Proof.
  intros Hm. apply match_here_inv in Hm
    as (a & b & c & d & f & g & h & rest & -> & -> & Ha & Hb & Hc & Hd & Hf
        & Hg & Hh & _ & _).
  split.
  - simpl. by rewrite Ha, Hb, Hc, Hd, Hf, Hg, Hh.
  - simpl. by destruct rest.
Qed.

(** No second match starts inside a match. *)
Lemma no_match_inside (prev : option ascii) (c : ascii) (s m : string) :
  match_here INPUT_PATTERN prev (String c s) = Some m →
  String.length m = 8%nat ∧ no_match_prefix 7 (Some c) s.
Proof.
  intros Hm. apply match_here_inv in Hm
    as (a & b & c' & d & f & g & h & rest & [= -> ->] & -> & Ha & Hb & Hc & Hd
        & Hf & Hg & Hh & _ & _).
  split; [done|].
  apply upper_is_word in Ha as Wa, Hb as Wb, Hf as Wf, Hg as Wg, Hh as Wh.
  apply decimal_is_word in Hc as Wc, Hd as Wd.
  apply upper_not_decimal in Hh as Nh.
  unfold no_match_prefix, INPUT_PATTERN, match_here, word_at, head_char,
    from_option, atom_matches.
  rewrite Wa, Wb, Wc, Wd, Wf, Wg, Wh, Hf, Hg, Nh.
  by vm_compute.
Qed.

(** The scan, started with no match inside the characters it skips,
    yields the matches at all positions, from left to right. *)
Lemma findall_from_occurrences (s : string) (k : nat) (prev : option ascii) :
  no_match_prefix k prev s →
  findall_from INPUT_PATTERN k prev s
    = omap (occurrence_from prev s) (seq 0 (String.length s)).
Proof.
  revert k prev. induction s as [|c s IH]; intros k prev Hk; [done|].
  assert (Htail : omap (occurrence_from prev (String c s))
                    (seq 1 (String.length s))
                  = omap (occurrence_from (Some c) s) (seq 0 (String.length s))).
  { rewrite <- fmap_S_seq. apply list_omap_ext.
    apply Forall2_fmap_l, Forall_Forall2_diag, Forall_forall.
    intros [|j] _; reflexivity. }
  change (String.length (String c s)) with (Datatypes.S (String.length s)).
  rewrite <- cons_seq. cbn [omap list_omap]. rewrite Htail.
  change (occurrence_from prev (String c s) 0)
    with (match_here INPUT_PATTERN prev (String c s)).
  destruct k as [|k].
  - cbn [findall_from].
    destruct (match_here INPUT_PATTERN prev (String c s)) as [m|] eqn:Hm.
    + destruct (no_match_inside _ _ _ _ Hm) as [-> Hin].
      f_equal. by apply IH.
    + by apply IH.
  - destruct Hk as [Hnone Hk]. cbn [findall_from]. rewrite Hnone. by apply IH.
Qed.

(** C6: every text that [load_registrations] returns has the registration
    format; the list returned is, position by position from the left,
    what the pattern matches in the content, every occurrence kept; and
    each is the eight characters of the content at its position. *)
Theorem load_registrations_in_format_and_order (content : string) :
  Forall (λ r, plate_format r = true) (load_registrations content)
  ∧ load_registrations content
      = omap (occurrence_at content) (seq 0 (String.length content))
  ∧ (∀ i r, occurrence_at content i = Some r →
       plate_format r = true ∧ r = substring i 8 content).
Proof.
  assert (Hocc : ∀ i r, occurrence_at content i = Some r →
            plate_format r = true ∧ r = substring i 8 content).
  { intros i r Hr. unfold occurrence_at, occurrence_from in Hr.
    apply match_here_format in Hr as [Hf ->]. split; [done|].
    clear. revert content. induction i as [|i IH]; intros [|c s]; try done.
    apply (IH s). }
  assert (Hall : load_registrations content
            = omap (occurrence_at content) (seq 0 (String.length content))).
  { by apply findall_from_occurrences. }
  split_and!; [|done|done].
  rewrite Hall. apply Forall_forall. intros r Hr.
  apply list_elem_of_omap in Hr as (i & _ & Hi). by apply Hocc in Hi as [].
Qed.

(** Two occurrences of one registration are both loaded, in text order
    with the others. *)
Example load_registrations_keeps_duplicates :
  load_registrations "Vehicle AB12 CDE was seen, then XY99 ZZZ and AB12 CDE."
  = ["AB12 CDE"; "XY99 ZZZ"; "AB12 CDE"].
Proof. reflexivity. Qed.

(** ** Loading the expected data *)

Lemma load_expected_data_from (df : list csv_row)
    (d : gmap string (pyval * pyval)) (k : string) (v : pyval * pyval) :
  foldl (λ d row, <[ row.(VARIANT_REG) := expected_entry row ]> d) d df !! k
    = Some v →
  d !! k = Some v
  ∨ ∃ row, row ∈ df ∧ row.(VARIANT_REG) = k ∧ v = expected_entry row.
Proof.
  revert d. induction df as [|row df IH]; intros d; simpl; [by left|].
  intros Hv. apply IH in Hv as [Hv|(row' & Hin & Hk & Hv)].
  - destruct (decide (row.(VARIANT_REG) = k)) as [Hk|Hk].
    + rewrite Hk, lookup_insert_eq in Hv. injection Hv as <-.
      right. exists row. split_and!; [apply list_elem_of_here|done..].
    + rewrite lookup_insert_ne in Hv by done. by left.
  - right. exists row'. split_and!; [by apply list_elem_of_further|done..].
Qed.

Lemma load_expected_data_later_rows (df : list csv_row)
    (d : gmap string (pyval * pyval)) (k : string) :
  (∀ row, row ∈ df → row.(VARIANT_REG) ≠ k) →
  foldl (λ d row, <[ row.(VARIANT_REG) := expected_entry row ]> d) d df !! k
    = d !! k.
Proof.
  revert d. induction df as [|row df IH]; intros d Hne; simpl; [done|].
  rewrite IH.
  - apply lookup_insert_ne, Hne, list_elem_of_here.
  - intros row' Hin. by apply Hne, list_elem_of_further.
Qed.

(** C10: every value of the map that [load_expected_data] builds comes
    from a row of the table, with the MAKE_MODEL cell as it is and the
    YEAR cell turned into text by [str], so its year is always text; the
    last row of a registration is the one stored; and the number 2019
    becomes the text "2019". *)
Theorem load_expected_data_year_is_text (df : list csv_row) :
  (∀ k v, load_expected_data df !! k = Some v →
     (∃ row, row ∈ df ∧ row.(VARIANT_REG) = k
             ∧ v = (row.(MAKE_MODEL), VStr (py_str row.(YEAR))))
     ∧ ∃ year : string, v.2 = VStr year)
  ∧ (∀ before row after,
       df = (before ++ row :: after)%list →
       (∀ row', row' ∈ after → row'.(VARIANT_REG) ≠ row.(VARIANT_REG)) →
       load_expected_data df !! row.(VARIANT_REG)
         = Some (row.(MAKE_MODEL), VStr (py_str row.(YEAR))))
  ∧ py_str (VInt 2019) = "2019".
Proof.
  split_and!.
  - intros k v Hv. apply load_expected_data_from in Hv
      as [Hv|(row & Hin & Hk & ->)]; [by rewrite lookup_empty in Hv|].
    split; [by exists row|]. by eexists.
  - intros before row after -> Hlast. unfold load_expected_data.
    rewrite foldl_app. simpl.
    rewrite (load_expected_data_later_rows after _ _ Hlast).
    apply lookup_insert_eq.
  - reflexivity.
Qed.

(** ** What the missing ["action"] key costs the shipped flows *)

Section ShippedFlows.
Context {S : Type} `{WebDriver S}.

Lemma for_fold_all_steps_ok {A} (l : list A) (body : A → unit → M S unit)
    (s s' : S) (u : unit) :
  for_fold l tt body s = Ok u s' →
  ∀ x, x ∈ l → ∃ s1 s2 u', body x tt s1 = Ok u' s2.
Proof.
  revert s. induction l as [|a l IH]; intros s Hrun x Hx.
  - by apply elem_of_nil in Hx.
  - simpl in Hrun. unfold_M.
    destruct (body a tt s) as [[] s1|e s1] eqn:Ha; [|done].
    apply elem_of_cons in Hx as [->|Hx]; [eauto|].
    by apply (IH s1).
Qed.

(** A flow with a step that has no ["action"] key never reports a
    successful search: it returns [False] or raises. *)
Lemma search_registration_with_keyless_step (cfg : site_config) (st : flow_step)
    (plate : string) (found : option bool) (s s' : S) :
  st ∈ cfg.(search_flow) → st !! "action" = None →
  search_registration (WebsiteValidator_init cfg) plate s = Ok found s' →
  found = Some false.
Proof.
  intros Hin Hkey. rewrite search_registration_single.
  unfold search_registration_body. unfold_M.
  destruct (driver_get _ s) as [[] s1|e s1]; simpl.
  - destruct (for_fold _ tt _ s1) as [u s2|e s2] eqn:Hrun; simpl.
    + destruct (for_fold_all_steps_ok _ _ _ _ _ Hrun st Hin)
        as (s3 & s4 & u' & Hok).
      by rewrite execute_action_without_action in Hok.
    + destruct (is_WebDriverException e); [|done]. by intros [= <- _].
  - destruct (is_WebDriverException e); [|done]. by intros [= <- _].
Qed.

(** With the shipped table no validation ends in "Pass" or "Fail". *)
Lemma shipped_table_never_classifies (name plate : string)
    (expected_data : gmap string (pyval * pyval)) (r : validation_result)
    (s s' : S) :
  validate_registration WEBSITE_CONFIGS name plate expected_data s = Ok r s' →
  r.(status) = "Search Failed" ∨ r.(status) = "Error".
Proof.
  unfold validate_registration.
  destruct (dict_lookup WEBSITE_CONFIGS name) as [cfg|] eqn:Hcfg.
  - assert (∃ st, st ∈ cfg.(search_flow) ∧ st !! "action" = None)
      as (st & Hin & Hkey).
    { assert (∃ i st, cfg.(search_flow) !! i = Some st ∧ st !! "action" = None)
        as (i & st & Hi & Hkey); [|by eauto using list_elem_of_lookup_2].
      unfold WEBSITE_CONFIGS in Hcfg. simpl in Hcfg.
      repeat case_decide; simplify_eq;
        first [ by exists 1%nat; eexists; split; [reflexivity|vm_compute]
              | by exists 2%nat; eexists; split; [reflexivity|vm_compute]
              | by exists 3%nat; eexists; split; [reflexivity|vm_compute] ]. }
    destruct (search_registration _ plate s) as [found s1|e s1] eqn:Hs.
    + rewrite (search_registration_with_keyless_step _ _ _ _ _ _ Hin Hkey Hs).
      simpl. intros [= <- _]. by left.
    + edestruct on_exception_returns as [s3 ->]. intros [= <- _]. by right.
  - edestruct on_exception_returns as [s3 ->]. intros [= <- _]. by right.
Qed.

End ShippedFlows.

(** * Further properties of the code *)

(** ** Flow executor and field extractor *)

Section ExecutorFacts.
Context {S : Type} `{WebDriver S}.

Lemma get_vehicle_details_handles (self : WebsiteValidator) (s s' : S)
    (e : exn) :
  get_vehicle_details self s = Raise e s' → is_WebDriverException e = false.
Proof.
  unfold get_vehicle_details, try_except.
  match goal with
  | |- context [match ?b s with _ => _ end] => destruct (b s) as [a s1|e1 s1]
  end; [done|].
  destruct (is_WebDriverException e1) eqn:E; [done|]. by intros [= <- _].
Qed.

(** X1: whatever the browser does, [search_registration] returns [True]
    or [False] (never [None]) or raises something that is not a
    [WebDriverException], and [get_vehicle_details] raises no
    [WebDriverException] either: timeouts never leave the two methods. *)
Theorem browser_failures_never_escape (self : WebsiteValidator)
    (plate : string) (s : S) :
  match search_registration self plate s with
  | Ok found _ => ∃ b : bool, found = Some b
  | Raise e _ => is_WebDriverException e = false
  end
  ∧ match get_vehicle_details self s with
    | Ok _ _ => True
    | Raise e _ => is_WebDriverException e = false
    end.
Proof.
  split.
  - rewrite search_registration_single.
    destruct (search_registration_body self plate s) as [b s'|e s'] eqn:E.
    + by exists b.
    + by apply search_registration_body_handles in E.
  - destruct (get_vehicle_details self s) as [p s'|e s'] eqn:E; [done|].
    by apply get_vehicle_details_handles in E.
Qed.

(** X2: a step whose ["action"] is neither "input" nor "click" does
    nothing at all when it has no ["wait_for"] key, and waits for the
    presence of the located element when it has one: the wait is reached
    only through a step that also carries an ["action"] key. *)
Theorem execute_action_other_action (self : WebsiteValidator)
    (st : flow_step) (action : step_value) (registration : string) (s : S) :
  st !! "action" = Some action →
  action ≠ SStr "input" → action ≠ SStr "click" →
  (st !! "wait_for" = None → _execute_action self st registration s = Ok tt s)
  ∧ (∀ loc, st !! "wait_for" = Some (SLoc loc) →
       _execute_action self st registration s
       = match wait_until self.(wait) (presence_of_element_located loc) s with
         | Ok _ s' => Ok tt s'
         | Raise e s' => Raise e s'
         end).
Proof.
  intros Ha Hi Hc. unfold _execute_action, getitem. unfold_M.
  unfold flow_step in *.
  rewrite Ha. simpl. rewrite !decide_False by done. split.
  - intros Hw. rewrite decide_False; [done|]. rewrite Hw. by intros [? ?].
  - intros loc Hw. rewrite decide_True by (by rewrite Hw). rewrite Hw. simpl.
    by destruct (wait_until _ _ s).
Qed.

End ExecutorFacts.

Lemma execute_action_other_action_witness :
  _execute_action (WebsiteValidator_init motorway)
    {[ "action" := SStr "wait";
       "wait_for" := SLoc (By_CSS_SELECTOR, "h1.HeroVehicle__title") ]}
    "AB12 CDE" healthy = Ok tt healthy.
Proof.
  destruct (execute_action_other_action (WebsiteValidator_init motorway)
              {[ "action" := SStr "wait";
                 "wait_for" := SLoc (By_CSS_SELECTOR, "h1.HeroVehicle__title") ]}
              (SStr "wait") "AB12 CDE" healthy) as [_ Hwait];
    [reflexivity|discriminate|discriminate|].
  rewrite (Hwait (By_CSS_SELECTOR, "h1.HeroVehicle__title")); reflexivity.
Defined.

(** ** Validator *)

Section RowFacts.
Context {S : Type} `{WebDriver S}.
Implicit Types (configs : list (string * site_config)).
Implicit Types (expected_data : gmap string (pyval * pyval)).

Lemma get_vehicle_details_sentinel (self : WebsiteValidator) (s : S) :
  lookup_fails self s →
  ∃ s', get_vehicle_details self s = Ok ("Not Found", "N/A") s'.
Proof.
  intros [(e & s1 & Hm & He)|(el & s1 & t & s2 & e & s3 & Hm & Ht & Hy & He)];
    unfold get_vehicle_details; unfold_M.
  - rewrite Hm, He. eauto.
  - rewrite Hm. simpl. rewrite Ht. simpl. rewrite Hy, He. eauto.
Qed.

(** X3: a site name that the table does not hold gives a row with status
    "Error" and all four model and year fields "N/A"; for a site of the
    table the expected fields are what the expected-data map holds for the
    registration (or the pair "Not Found", "N/A"), also in rows that end
    in "Search Failed" or "Error". *)
Theorem expected_fields_follow_site_lookup configs (name plate : string)
    expected_data (s : S) :
  ∃ r s', validate_registration configs name plate expected_data s = Ok r s'
    ∧ (dict_lookup configs name = None →
         r.(status) = "Error"
         ∧ r.(exp_model) = VStr "N/A" ∧ r.(exp_year) = VStr "N/A"
         ∧ r.(act_model) = VStr "N/A" ∧ r.(act_year) = VStr "N/A")
    ∧ (is_Some (dict_lookup configs name) →
         (r.(exp_model), r.(exp_year)) = expected_or_sentinel expected_data plate).
Proof.
  unfold validate_registration, expected_or_sentinel.
  destruct (dict_lookup configs name) as [cfg|].
  - destruct (default _ (expected_data !! plate)) as [em ey].
    destruct (search_registration _ plate s) as [found s1|e s1].
    + destruct (truthy found).
      * destruct (get_vehicle_details _ s1) as [[m y] s2|e s2].
        -- by eexists _, _.
        -- edestruct on_exception_returns as [s3 ->]. by eexists _, _.
      * by eexists _, _.
    + edestruct on_exception_returns as [s3 ->]. by eexists _, _.
  - edestruct on_exception_returns as [s3 ->].
    eexists _, _. split_and!; [done|done|]. by intros [? ?].
Qed.

(** X4: the status of the returned row is "Error" exactly when the site
    lookup, the search or the extraction raised. *)
Theorem error_status_iff_raised configs (name plate : string)
    expected_data (s : S) :
  ∃ r s', validate_registration configs name plate expected_data s = Ok r s'
    ∧ (r.(status) = "Error" ↔ validation_raises configs name plate s).
Proof.
  unfold validate_registration, validation_raises.
  destruct (dict_lookup configs name) as [cfg|].
  - destruct (search_registration _ plate s) as [found s1|e s1] eqn:Hs.
    + destruct (truthy found) eqn:Hf.
      * destruct (get_vehicle_details _ s1) as [[m y] s2|e s2] eqn:Hg.
        -- eexists _, _. split; [reflexivity|]. simpl. split.
           ++ by destruct (str_eq m _ && str_eq y _).
           ++ intros [(e & s3 & [=])|(f & s3 & e & s4 & [= <- <-] & _ & Hr)].
              by rewrite Hg in Hr.
        -- edestruct on_exception_returns as [s3 ->].
           eexists _, _. split; [reflexivity|]. split; [|done].
           intros _. right. by exists found, s1, e, s2.
      * eexists _, _. split; [reflexivity|]. simpl. split; [done|].
        intros [(e & s3 & [=])|(f & s3 & e & s4 & [= <- <-] & Ht & _)].
        by rewrite Hf in Ht.
    + edestruct on_exception_returns as [s3 ->].
      eexists _, _. split; [reflexivity|]. split; [|done].
      intros _. left. by exists e, s1.
  - edestruct on_exception_returns as [s3 ->]. by eexists _, _.
Qed.

(** X5: for a registration that the expected-data map does not hold, a
    search that returns true followed by an extraction whose lookup fails
    gives a row with status "Pass": the sentinel of the extractor equals
    the sentinel of the missing expectation. *)
Theorem absent_registration_passes_when_extraction_fails configs
    (name plate : string) expected_data (cfg : site_config)
    (found : option bool) (s s1 : S) :
  expected_data !! plate = None →
  dict_lookup configs name = Some cfg →
  search_registration (WebsiteValidator_init cfg) plate s = Ok found s1 →
  truthy found = true →
  lookup_fails (WebsiteValidator_init cfg) s1 →
  ∃ r s', validate_registration configs name plate expected_data s = Ok r s'
    ∧ r.(status) = "Pass"
    ∧ r.(act_model) = VStr "Not Found" ∧ r.(act_year) = VStr "N/A".
Proof.
  intros Hmiss Hcfg Hsearch Hfound Hfail.
  apply get_vehicle_details_sentinel in Hfail as [s2 Hget].
  unfold validate_registration.
  rewrite Hcfg, Hmiss, Hsearch, Hfound, Hget. by eexists _, _.
Qed.

End RowFacts.

Lemma absent_registration_passes_when_extraction_fails_witness :
  ∃ r s', validate_registration demo_configs "motorway" "XX99 ZZZ"
            demo_expected blank = Ok r s'
    ∧ r.(status) = "Pass"
    ∧ r.(act_model) = VStr "Not Found" ∧ r.(act_year) = VStr "N/A".
Proof.
  eapply (absent_registration_passes_when_extraction_fails demo_configs
            "motorway" "XX99 ZZZ" demo_expected motorway_input_only
            (Some true) blank); [reflexivity..|].
  left. eexists _, _. split; reflexivity.
Defined.

(** ** The rows that main collects *)

Section MainFacts.
Context {S : Type} `{WebDriver S}.
Implicit Types (configs : list (string * site_config)).
Implicit Types (expected_data : gmap string (pyval * pyval)).
Implicit Types (P : validation_result → Prop).

Lemma registrations_loop_forall P configs (name : string)
    (plates : list string) expected_data :
  (∀ plate s r s', plate ∈ plates →
     validate_registration configs name plate expected_data s = Ok r s' → P r) →
  ∀ (results out : list validation_result) (s s' : S),
    Forall P results →
    for_fold plates results
      (λ plate results,
         result ← validate_registration configs name plate expected_data;
         mret (results ++ [result])%list) s = Ok out s' →
    Forall P out.
Proof.
  induction plates as [|plate plates IH]; intros HP results out s s' Hacc.
  - simpl. unfold ret. by intros [= <- _].
  - simpl. unfold_M.
    destruct (validate_registration configs name plate expected_data s)
      as [r s1|e s1] eqn:Hr; [|done].
    apply IH.
    + intros plate' s0 r0 s0' Hin. apply HP. by apply list_elem_of_further.
    + apply Forall_app. split; [done|]. apply Forall_singleton.
      apply (HP plate s r s1); [apply list_elem_of_here|done].
Qed.

Lemma sites_loop_forall P configs (names plates : list string)
    expected_data :
  (∀ name plate s r s', name ∈ names → plate ∈ plates →
     validate_registration configs name plate expected_data s = Ok r s' → P r) →
  ∀ (results out : list validation_result) (s s' : S),
    Forall P results →
    for_fold names results
      (λ website results,
         for_fold plates results
           (λ plate results,
              result ← validate_registration configs website plate expected_data;
              mret (results ++ [result])%list)) s = Ok out s' →
    Forall P out.
Proof.
  induction names as [|name names IH]; intros HP results out s s' Hacc.
  - simpl. unfold ret. by intros [= <- _].
  - simpl. unfold mbind at 1, M_bind at 1, bind at 1.
    destruct (for_fold plates results _ s) as [mid s1|e s1] eqn:Hin; [|done].
    apply IH.
    + intros name' plate s0 r0 s0' Hn. apply HP. by apply list_elem_of_further.
    + eapply registrations_loop_forall; [|exact Hacc|exact Hin].
      intros plate s0 r0 s0' Hp. apply HP; [apply list_elem_of_here|done].
Qed.

(** Every row of [main] has what every row of [validate_registration]
    has, for the sites of the table and the registrations given. *)
Lemma main_rows_forall P configs (input_regs : list string) expected_data
    (s : S) :
  (∀ name plate s r s', name ∈ dict_keys configs → plate ∈ input_regs →
     validate_registration configs name plate expected_data s = Ok r s' → P r) →
  ∃ results s', main configs input_regs expected_data s = Ok results s'
                ∧ Forall P results.
Proof.
  intros HP. unfold main.
  destruct (sites_loop configs (dict_keys configs) input_regs expected_data [] s)
    as (rs & s' & Hrun & _).
  exists rs, s'. split; [exact Hrun|].
  by eapply sites_loop_forall; [exact HP| |exact Hrun].
Qed.

Lemma validate_registration_consistent configs (name plate : string)
    expected_data (r : validation_result) (s s' : S) :
  validate_registration configs name plate expected_data s = Ok r s' →
  row_consistent r.
Proof.
  assert (Hna : ∀ w p em ey st, st = "Error" ∨ st = "Search Failed" →
            row_consistent {| website := w; reg := p; exp_model := em;
                              exp_year := ey; act_model := VStr "N/A";
                              act_year := VStr "N/A"; status := st |}).
  { intros w p em ey st Hst. unfold row_consistent, is_text. simpl.
    split_and!; try (by eexists); intros Hs; destruct Hst; by subst. }
  unfold validate_registration.
  destruct (dict_lookup configs name) as [cfg|].
  - destruct (search_registration _ plate s) as [found s1|e s1].
    + destruct (truthy found).
      * destruct (get_vehicle_details _ s1) as [[m y] s2|e s2].
        -- intros [= <- _]. unfold row_consistent, is_text. simpl.
           destruct (str_eq m _) eqn:Em; simpl.
           ++ destruct (str_eq y _) eqn:Ey; simpl.
              ** apply str_eq_spec in Em, Ey.
                 split_and!; try (by eexists); try done. by intros [? | ?].
              ** split_and!; try (by eexists); try done.
                 --- intros _ [_ Hy]. apply str_eq_spec in Hy. by rewrite Hy in Ey.
                 --- by intros [? | ?].
           ++ split_and!; try (by eexists); try done.
              ** intros _ [Hm _]. apply str_eq_spec in Hm. by rewrite Hm in Em.
              ** by intros [? | ?].
        -- edestruct on_exception_returns as [s3 ->]. intros [= <- _].
           apply Hna. by left.
      * intros [= <- _]. apply Hna. by right.
    + edestruct on_exception_returns as [s3 ->]. intros [= <- _].
      apply Hna. by left.
  - edestruct on_exception_returns as [s3 ->]. intros [= <- _].
    apply Hna. by left.
Qed.

(** X6: whatever the table, the inputs and the browser, every row that
    [main] collects is consistent: "Pass" only with actual fields equal to
    the expected ones, "Fail" only with a difference, "Search Failed" and
    "Error" only with both actual fields "N/A"; and the actual fields are
    always text. *)
Theorem main_rows_consistent configs (input_regs : list string)
    expected_data (s : S) :
  ∃ results s', main configs input_regs expected_data s = Ok results s'
                ∧ Forall row_consistent results.
Proof.
  apply main_rows_forall. intros name plate s0 r s0' _ _.
  apply validate_registration_consistent.
Qed.

(** X7: with the shipped table of sites, every row that [main] collects
    has status "Search Failed" or "Error", whatever the registrations, the
    expected data and the browser: no run reaches "Pass" or "Fail". *)
Theorem shipped_main_never_classifies (input_regs : list string)
    expected_data (s : S) :
  ∃ results s', main WEBSITE_CONFIGS input_regs expected_data s = Ok results s'
    ∧ Forall (λ r, r.(status) = "Search Failed" ∨ r.(status) = "Error") results.
Proof.
  apply main_rows_forall. intros name plate s0 r s0' _ _.
  apply shipped_table_never_classifies.
Qed.

End MainFacts.

(** ** The report *)

Lemma append_cons (c : ascii) (s1 s2 : string) :
  String c s1 +:+ s2 = String c (s1 +:+ s2).
Proof. reflexivity. Qed.

Lemma append_nil_l (s : string) : EmptyString +:+ s = s.
Proof. reflexivity. Qed.

Lemma append_nil_r (s : string) : s +:+ EmptyString = s.
Proof. induction s as [|c s IH]; [done|]. by rewrite append_cons, IH. Qed.

Lemma append_assoc (s1 s2 s3 : string) :
  (s1 +:+ s2) +:+ s3 = s1 +:+ (s2 +:+ s3).
Proof.
  induction s1 as [|c s1 IH]; [done|]. by rewrite !append_cons, IH.
Qed.

Lemma replace_with_app (a : ascii) (new s1 s2 : string) :
  replace_with a new (s1 +:+ s2)
  = replace_with a new s1 +:+ replace_with a new s2.
Proof.
  induction s1 as [|c s1 IH]; [done|].
  rewrite append_cons. cbn [replace_with].
  case_decide; rewrite IH; [|done].
  by rewrite append_assoc.
Qed.

(** The five replacements of [html.escape] amount to one pass that
    rewrites each character on its own. *)
Lemma html_escape_cons (c : ascii) (s : string) :
  html_escape (String c s) = escape_char c +:+ html_escape s.
Proof.
  unfold html_escape, escape_char. cbn [replace_with].
  destruct (decide (c = "&"%char)) as [->|Hamp].
  { rewrite !replace_with_app. reflexivity. }
  cbn [replace_with]. destruct (decide (c = "<"%char)) as [->|Hlt].
  { rewrite !replace_with_app. reflexivity. }
  cbn [replace_with]. destruct (decide (c = ">"%char)) as [->|Hgt].
  { rewrite !replace_with_app. reflexivity. }
  cbn [replace_with]. destruct (decide (c = dquote_char)) as [->|Hq].
  { rewrite !replace_with_app. reflexivity. }
  cbn [replace_with]. destruct (decide (c = "'"%char)) as [->|Ha]; reflexivity.
Qed.

Lemma all_chars_app (p : ascii → bool) (s1 s2 : string) :
  all_chars p (s1 +:+ s2) = all_chars p s1 && all_chars p s2.
Proof.
  induction s1 as [|c s1 IH]; [done|].
  rewrite append_cons. cbn [all_chars]. by rewrite IH, andb_assoc.
Qed.

Lemma escape_char_clean (c : ascii) :
  all_chars (λ c, negb (is_markup c)) (escape_char c) = true.
Proof.
  unfold escape_char. repeat case_decide; try reflexivity.
  simpl. unfold is_markup. by rewrite !bool_decide_eq_false_2.
Qed.

(** X8: the text that [html.escape] returns holds none of the characters
    [<], [>], double quote and single quote, whatever text it is given;
    and a text that holds none of them and no ampersand comes back
    unchanged. *)
Theorem html_escape_leaves_no_markup (s : string) :
  all_chars (λ c, negb (is_markup c)) (html_escape s) = true
  ∧ (all_chars (λ c, negb (is_markup c) && negb (bool_decide (c = "&"%char))) s
       = true → html_escape s = s).
Proof.
  split.
  - induction s as [|c s IH]; [done|].
    by rewrite html_escape_cons, all_chars_app, escape_char_clean, IH.
  - induction s as [|c s IH]; [done|]. simpl.
    intros [[Hm Ha%negb_true_iff%bool_decide_eq_false]%andb_true_iff Hs]%andb_true_iff.
    rewrite html_escape_cons, (IH Hs). unfold escape_char.
    unfold is_markup in Hm.
    apply negb_true_iff, orb_false_iff in Hm as [Hm H4%bool_decide_eq_false].
    apply orb_false_iff in Hm as [Hm H3%bool_decide_eq_false].
    apply orb_false_iff in Hm as [H1%bool_decide_eq_false H2%bool_decide_eq_false].
    by rewrite !decide_False.
Qed.

Lemma html_escape_leaves_no_markup_witness :
  html_escape "Ford Focus 1.6 (2019)" = "Ford Focus 1.6 (2019)".
Proof.
  apply (html_escape_leaves_no_markup "Ford Focus 1.6 (2019)"). reflexivity.
Defined.

Lemma escape_char_prefix_free (c1 c2 : ascii) (t1 t2 : string) :
  escape_char c1 +:+ t1 = escape_char c2 +:+ t2 → c1 = c2 ∧ t1 = t2.
Proof.
  unfold escape_char, dquote_char.
  repeat case_decide; subst; rewrite ?append_cons, ?append_nil_l;
    intros Heq; by simplify_eq.
Qed.

Lemma escape_char_nonempty (c : ascii) (t : string) :
  escape_char c +:+ t ≠ EmptyString.
Proof.
  unfold escape_char. by repeat case_decide; rewrite append_cons.
Qed.

(** X9: [html.escape] loses nothing: two texts with the same escaped form
    are the same text. *)
Theorem html_escape_injective (s1 s2 : string) :
  html_escape s1 = html_escape s2 → s1 = s2.
Proof.
  revert s2. induction s1 as [|c1 s1 IH]; intros [|c2 s2].
  - done.
  - rewrite html_escape_cons. intros Heq. symmetry in Heq.
    by apply escape_char_nonempty in Heq.
  - rewrite html_escape_cons. intros Heq. by apply escape_char_nonempty in Heq.
  - rewrite !html_escape_cons.
    intros [-> Heq]%escape_char_prefix_free. by rewrite (IH _ Heq).
Qed.

Lemma html_escape_injective_witness : "a<b" = "a<b".
Proof. apply (html_escape_injective "a<b" "a<b"). reflexivity. Defined.

Lemma escape_value_text (v : pyval) :
  is_text v → ∃ t, escape_value v = inr t.
Proof. intros [s ->]. by eexists. Qed.

Lemma escape_value_not_text (v : pyval) :
  ¬ is_text v → escape_value v = inl (PyException "AttributeError" "replace").
Proof. destruct v; try done. intros Hn. destruct Hn. by eexists. Qed.

Lemma report_row_text (r : validation_result) :
  fields_text r → ∃ row, report_row r = inr row.
Proof.
  intros (Hem & Ham & Hey & Hay). unfold report_row.
  destruct (escape_value_text _ Hem) as [? ->].
  destruct (escape_value_text _ Ham) as [? ->].
  destruct (escape_value_text _ Hey) as [? ->].
  destruct (escape_value_text _ Hay) as [? ->]. by eexists.
Qed.

Lemma report_row_not_text (r : validation_result) :
  ¬ fields_text r →
  report_row r = inl (PyException "AttributeError" "replace").
Proof.
  intros Hn. unfold report_row.
  destruct (escape_value r.(exp_model)) as [e|t1] eqn:E1.
  { destruct r.(exp_model); by simplify_eq/=. }
  destruct (escape_value r.(act_model)) as [e|t2] eqn:E2.
  { destruct r.(act_model); by simplify_eq/=. }
  destruct (escape_value r.(exp_year)) as [e|t3] eqn:E3.
  { destruct r.(exp_year); by simplify_eq/=. }
  destruct (escape_value r.(act_year)) as [e|t4] eqn:E4.
  { destruct r.(act_year); by simplify_eq/=. }
  destruct Hn. unfold fields_text, is_text.
  destruct r.(exp_model), r.(act_model), r.(exp_year), r.(act_year);
    simplify_eq/=. split_and!; by eexists.
Qed.

Lemma report_row_error (r : validation_result) (e : exn) :
  report_row r = inl e → e = PyException "AttributeError" "replace".
Proof.
  unfold report_row, escape_value.
  destruct r.(exp_model), r.(act_model), r.(exp_year), r.(act_year);
    by intros [= <-].
Qed.

Lemma report_rows_text (results : list validation_result) :
  Forall fields_text results →
  ∃ rows, Forall2 (λ r row, report_row r = inr row) results rows
          ∧ report_rows results = inr rows.
Proof.
  induction 1 as [|r results Hr _ (rows & H2 & IH)].
  - by exists [].
  - destruct (report_row_text r Hr) as [row Hrow].
    exists (row :: rows). split; [by constructor|].
    simpl. by rewrite Hrow, IH.
Qed.

Lemma report_rows_not_text (results : list validation_result) :
  Exists (λ r, ¬ fields_text r) results →
  report_rows results = inl (PyException "AttributeError" "replace").
Proof.
  intros Hex.
  induction results as [|r results IH]; [by apply Exists_nil in Hex|].
  simpl. destruct (report_row r) as [e|row] eqn:Hrow.
  - by rewrite (report_row_error _ _ Hrow).
  - apply Exists_cons in Hex as [Hr|Hex].
    + apply report_row_not_text in Hr. by rewrite Hrow in Hr.
    + by rewrite (IH Hex).
Qed.

(** X10: [generate_html_report] writes its document, with one row per
    result in the order of the results, when the expected and actual
    model and year of every result are text; as soon as one of them is
    not (a number, a missing cell), it raises [AttributeError] and
    writes nothing. *)
Theorem report_written_iff_fields_text (results : list validation_result)
    (timestamp : string) :
  (Forall fields_text results →
     ∃ rows, Forall2 (λ r row, report_row r = inr row) results rows
       ∧ generate_html_report results timestamp
         = inr (report_head +:+ timestamp +:+ report_middle
                +:+ join newline rows +:+ report_tail))
  ∧ (Exists (λ r, ¬ fields_text r) results →
       generate_html_report results timestamp
       = inl (PyException "AttributeError" "replace")).
Proof.
  unfold generate_html_report. split.
  - intros (rows & H2 & ->)%report_rows_text. by exists rows.
  - by intros ->%report_rows_not_text.
Qed.

(** ** From the input files to the outputs *)

Lemma load_registrations_format (content plate : string) :
  plate ∈ load_registrations content → plate_format plate = true.
Proof.
  unfold load_registrations, findall.
  rewrite (findall_from_occurrences content 0 None) by done.
  intros (i & _ & Hi)%list_elem_of_omap. unfold occurrence_from in Hi.
  by apply match_here_format in Hi as [].
Qed.

Lemma load_expected_data_value (df : list csv_row) (k : string)
    (v : pyval * pyval) :
  load_expected_data df !! k = Some v →
  ∃ row, row ∈ df ∧ row.(VARIANT_REG) = k ∧ v = expected_entry row.
Proof.
  intros Hv. apply load_expected_data_from in Hv as [Hv|Hv]; [|done].
  by rewrite lookup_empty in Hv.
Qed.

Lemma dict_lookup_keys {V} (d : list (string * V)) (k : string) :
  k ∈ dict_keys d → is_Some (dict_lookup d k).
Proof.
  unfold dict_keys. induction d as [|[k' v] d IH].
  - by intros ?%elem_of_nil.
  - rewrite fmap_cons. simpl.
    intros [->|Hin]%elem_of_cons; case_decide; try done; by apply IH.
Qed.

Section ProgramFacts.
Context {S : Type} `{WebDriver S}.
Implicit Types (configs : list (string * site_config)).
Implicit Types (expected_data : gmap string (pyval * pyval)).

(** The fields of a row that do not depend on what the browser did. *)
Lemma validate_registration_expected configs (name plate : string)
    expected_data (r : validation_result) (s s' : S) :
  validate_registration configs name plate expected_data s = Ok r s' →
  r.(website) = name ∧ r.(reg) = plate
  ∧ (dict_lookup configs name = None
     ∧ r.(exp_model) = VStr "N/A" ∧ r.(exp_year) = VStr "N/A"
     ∨ is_Some (dict_lookup configs name)
       ∧ (r.(exp_model), r.(exp_year)) = expected_or_sentinel expected_data plate).
Proof.
  unfold validate_registration, expected_or_sentinel.
  destruct (dict_lookup configs name) as [cfg|].
  - destruct (default _ (expected_data !! plate)) as [em ey].
    destruct (search_registration _ plate s) as [found s1|e s1].
    + destruct (truthy found).
      * destruct (get_vehicle_details _ s1) as [[m y] s2|e s2].
        -- intros [= <- _]. split_and!; try done. right. by split.
        -- edestruct on_exception_returns as [s3 ->]. intros [= <- _].
           split_and!; try done. right. by split.
      * intros [= <- _]. split_and!; try done. right. by split.
    + edestruct on_exception_returns as [s3 ->]. intros [= <- _].
      split_and!; try done. right. by split.
  - edestruct on_exception_returns as [s3 ->]. intros [= <- _].
    split_and!; try done. by left.
Qed.

Lemma expected_or_sentinel_loaded (df : list csv_row) (plate : string) :
  is_text (expected_or_sentinel (load_expected_data df) plate).2
  ∧ ((∀ row, row ∈ df → is_text row.(MAKE_MODEL)) →
     is_text (expected_or_sentinel (load_expected_data df) plate).1).
Proof.
  unfold expected_or_sentinel.
  destruct (load_expected_data df !! plate) as [v|] eqn:Hv; simpl.
  - apply load_expected_data_value in Hv as (row & Hin & _ & ->). simpl.
    split; [by eexists|]. intros Hall. by apply Hall.
  - split; [by eexists|]. intros _. by eexists.
Qed.

Lemma loaded_row_well_formed configs (content : string) (df : list csv_row)
    (name plate : string) (r : validation_result) (s s' : S) :
  name ∈ dict_keys configs → plate ∈ load_registrations content →
  validate_registration configs name plate (load_expected_data df) s = Ok r s' →
  r.(website) ∈ dict_keys configs
  ∧ plate_format r.(reg) = true
  ∧ is_text r.(exp_year) ∧ is_text r.(act_model) ∧ is_text r.(act_year)
  ∧ ((∀ row, row ∈ df → is_text row.(MAKE_MODEL)) → fields_text r).
Proof.
  intros Hname Hplate Hrun.
  pose proof (validate_registration_consistent _ _ _ _ _ _ _ Hrun)
    as (_ & _ & _ & Ham & Hay).
  apply validate_registration_expected in Hrun as (-> & -> & Hexp).
  destruct (expected_or_sentinel_loaded df plate) as [Hy Hm].
  assert (is_text r.(exp_year)
          ∧ ((∀ row, row ∈ df → is_text row.(MAKE_MODEL)) → is_text r.(exp_model)))
    as [Hey Hem].
  { destruct Hexp as [(_ & -> & ->)|[_ Heq]].
    - split; [by eexists|]. intros _. by eexists.
    - rewrite <- Heq in Hy, Hm. done. }
  split_and!; try done.
  - by apply (load_registrations_format content).
  - intros Hall. unfold fields_text. split_and!; try done. by apply Hem.
Qed.

(** X11: when [main] is run on what the two loaders return, every row it
    collects names a site of the table and a registration of the format
    LLDD LLL, and has a text as expected year and as actual model and
    year; if moreover every MAKE_MODEL cell of the table is text, all the
    fields that the report escapes are text. *)
Theorem loaded_rows_well_formed configs (content : string)
    (df : list csv_row) (s : S) :
  ∃ results s',
    main configs (load_registrations content) (load_expected_data df) s
      = Ok results s'
    ∧ Forall (λ r,
        r.(website) ∈ dict_keys configs
        ∧ plate_format r.(reg) = true
        ∧ is_text r.(exp_year) ∧ is_text r.(act_model) ∧ is_text r.(act_year)
        ∧ ((∀ row, row ∈ df → is_text row.(MAKE_MODEL)) → fields_text r))
        results.
Proof.
  apply main_rows_forall. intros name plate s0 r s0'.
  apply loaded_row_well_formed.
Qed.

(** The run of [main], with the keys of its rows and a property of each. *)
Lemma main_rows_keyed (P : validation_result → Prop) configs
    (input_regs : list string) expected_data (s : S) :
  (∀ name plate s r s', name ∈ dict_keys configs → plate ∈ input_regs →
     validate_registration configs name plate expected_data s = Ok r s' → P r) →
  ∃ results s', main configs input_regs expected_data s = Ok results s'
    ∧ (λ r, (r.(website), r.(reg))) <$> results
        = list_prod (dict_keys configs) input_regs
    ∧ Forall P results.
Proof.
  intros HP. unfold main.
  destruct (sites_loop configs (dict_keys configs) input_regs expected_data [] s)
    as (rs & s' & Hrun & Hkeys).
  exists rs, s'. split_and!; [exact Hrun|exact Hkeys|].
  by eapply sites_loop_forall; [exact HP| |exact Hrun].
Qed.

End ProgramFacts.

Section WholeProgram.
Context {S : Type} `{WebDriver S} `{ChromeHost S}.
Implicit Types (configs : list (string * site_config)).

(** Once the browser is up, the [with] block of [main] runs the loops
    and quits the browser; the loops never raise. *)
Lemma with_BrowserManager_main (P : validation_result → Prop) configs
    (input_regs : list string) (expected_data : gmap string (pyval * pyval))
    (s s2 : S) :
  browser_starts s s2 → quit_succeeds S →
  (∀ name plate s r s', name ∈ dict_keys configs → plate ∈ input_regs →
     validate_registration configs name plate expected_data s = Ok r s' → P r) →
  ∃ results s',
    with_BrowserManager (main configs input_regs expected_data) s
      = Ok results s'
    ∧ (λ r, (r.(website), r.(reg))) <$> results
        = list_prod (dict_keys configs) input_regs
    ∧ Forall P results.
Proof.
  intros (s0 & s1 & Hi & Hc & Hw) Hquit HP.
  destruct (main_rows_keyed P configs input_regs expected_data s2 HP)
    as (results & s3 & Hrun & Hkeys & Hall).
  destruct (Hquit s3) as [s4 Hq].
  exists results, s4. split_and!; [|done..].
  unfold with_BrowserManager, BrowserManager__init__, BrowserManager__enter__,
    BrowserManager__exit__. unfold_M.
  rewrite Hi. simpl. rewrite Hc. simpl. rewrite Hw. simpl.
  rewrite Hrun. simpl. by rewrite Hq.
Qed.

(** X12: if the browser can be started and quit and every MAKE_MODEL
    cell of the expected-data table is text, [main] runs to its end
    whatever happens on the sites: it returns one row per site and loaded
    registration, in order, and the report written for these rows. *)
Theorem main_program_completes configs (content : string)
    (df : list csv_row) (timestamp : string) (s s2 : S) :
  browser_starts s s2 → quit_succeeds S →
  (∀ row, row ∈ df → is_text row.(MAKE_MODEL)) →
  ∃ report results s',
    main_program configs content df timestamp s = Ok (report, results) s'
    ∧ (λ r, (r.(website), r.(reg))) <$> results
        = list_prod (dict_keys configs) (load_registrations content)
    ∧ generate_html_report results timestamp = inr report.
Proof.
  intros Hup Hquit Htext.
  destruct (with_BrowserManager_main fields_text configs
              (load_registrations content) (load_expected_data df) s s2 Hup Hquit)
    as (results & s' & Hrun & Hkeys & Hall).
  { intros name plate s0 r s0' Hn Hp Hr.
    by apply (loaded_row_well_formed configs content df name plate r s0 s0'). }
  unfold generate_html_report.
  destruct (report_rows_text results Hall) as (rows & _ & Hrows).
  eexists _, results, s'. split_and!; [|done|].
  - unfold main_program, generate_html_report. unfold_M.
    rewrite Hrun, Hrows. reflexivity.
  - by rewrite Hrows.
Qed.

(** X13: if a loaded registration has, in the expected-data map, a model
    that is not text (a number, or the NaN of an empty cell), then for
    any table with at least one site [main] raises [AttributeError] while
    it builds the report, after the browser work is done: neither the
    report nor the CSV file is written. *)
Theorem non_text_model_aborts_report configs (name : string)
    (content : string) (df : list csv_row) (plate : string)
    (model year : pyval) (timestamp : string) (s s2 : S) :
  browser_starts s s2 → quit_succeeds S →
  name ∈ dict_keys configs →
  plate ∈ load_registrations content →
  load_expected_data df !! plate = Some (model, year) →
  ¬ is_text model →
  ∃ s', main_program configs content df timestamp s
        = Raise (PyException "AttributeError" "replace") s'.
Proof.
  intros Hup Hquit Hname Hplate Hmodel Hnot.
  destruct (with_BrowserManager_main
              (λ r, is_Some (dict_lookup configs r.(website)) →
                    (r.(exp_model), r.(exp_year))
                    = expected_or_sentinel (load_expected_data df) r.(reg))
              configs (load_registrations content) (load_expected_data df)
              s s2 Hup Hquit)
    as (results & s' & Hrun & Hkeys & Hall).
  { intros n p s0 r s0' _ _ Hr.
    apply validate_registration_expected in Hr as (-> & -> & [[Hn _]|[_ He]]).
    - rewrite Hn. by intros [? ?].
    - done. }
  assert (Hin : (name, plate) ∈ (λ r, (r.(website), r.(reg))) <$> results).
  { rewrite Hkeys. apply list_elem_of_In, in_prod; by apply list_elem_of_In. }
  apply list_elem_of_fmap in Hin as (r & [= Hw Hr] & Hin).
  assert (Hbad : Exists (λ r, ¬ fields_text r) results).
  { apply Exists_exists. exists r. split; [done|].
    rewrite Forall_forall in Hall. specialize (Hall r Hin).
    rewrite <- Hw, <- Hr in Hall. unfold expected_or_sentinel in Hall.
    rewrite Hmodel in Hall. simpl in Hall.
    specialize (Hall (dict_lookup_keys _ _ Hname)). injection Hall as Hm _.
    intros (Hem & _). by rewrite Hm in Hem. }
  exists s'. unfold main_program, generate_html_report. unfold_M.
  by rewrite Hrun, (report_rows_not_text results Hbad).
Qed.

End WholeProgram.

Lemma mock_starts : browser_starts healthy healthy.
Proof. exists healthy, healthy. by split_and!. Qed.

Lemma mock_quits : quit_succeeds mock.
Proof. intros s. by exists s. Qed.

Lemma main_program_completes_witness :
  ∃ report results s',
    main_program demo_configs demo_content demo_table "2025-01-01 09:00:00"
      healthy = Ok (report, results) s'
    ∧ (λ r, (r.(website), r.(reg))) <$> results
        = list_prod (dict_keys demo_configs) (load_registrations demo_content)
    ∧ generate_html_report results "2025-01-01 09:00:00" = inr report.
Proof.
  apply (main_program_completes demo_configs demo_content demo_table
           "2025-01-01 09:00:00" healthy healthy mock_starts mock_quits).
  intros row ->%list_elem_of_singleton. by eexists.
Defined.

Lemma non_text_model_aborts_report_witness :
  ∃ s', main_program demo_configs demo_content demo_table_nan
          "2025-01-01 09:00:00" healthy
        = Raise (PyException "AttributeError" "replace") s'.
Proof.
  apply (non_text_model_aborts_report demo_configs "motorway" demo_content
           demo_table_nan "AB12 CDE" (VFloat "nan") (VStr "2019")
           "2025-01-01 09:00:00" healthy healthy mock_starts mock_quits).
  - by apply list_elem_of_singleton.
  - by apply list_elem_of_singleton.
  - reflexivity.
  - by intros [? ?].
Defined.

(** ** Trimming and formatting *)

Lemma lstrip_decompose (s : string) :
  ∃ pre, s = pre +:+ lstrip s
         ∧ all_chars is_space pre = true
         ∧ not_space_at (head_char (lstrip s)) = true.
Proof.
  induction s as [|c s (pre & Hs & Hpre & Hhead)].
  - by exists EmptyString.
  - simpl. destruct (is_space c) eqn:Ec.
    + exists (String c pre). rewrite append_cons, <- Hs. simpl.
      by rewrite Ec, Hpre.
    + exists EmptyString. simpl. by rewrite Ec.
Qed.

Lemma rstrip_decompose (s : string) :
  ∃ post, s = rstrip s +:+ post
          ∧ all_chars is_space post = true
          ∧ not_space_at (last_char (rstrip s)) = true.
Proof.
  induction s as [|c s (post & Hs & Hpost & Hlast)].
  - by exists EmptyString.
  - simpl. destruct (rstrip s) as [|d r] eqn:Er.
    + rewrite append_nil_l in Hs. subst post.
      destruct (is_space c) eqn:Ec.
      * exists (String c s). simpl. by rewrite Ec, Hpost.
      * exists s. simpl. by rewrite Ec.
    + exists post. rewrite append_cons, <- Hs. done.
Qed.

Lemma rstrip_keeps_head (s : string) :
  not_space_at (head_char s) = true →
  not_space_at (head_char (rstrip s)) = true.
Proof.
  destruct s as [|c s]; [done|]. simpl.
  intros Ec%negb_true_iff.
  destruct (rstrip_head c s Ec) as [s' Hs']. simpl in Hs'. rewrite Hs'. simpl.
  by rewrite Ec.
Qed.

(** X14: [strip] cuts white space off both ends and nothing else: the
    text is some white space, then the stripped text, then some white
    space, and the stripped text neither begins nor ends with a white
    space character. *)
Theorem strip_cuts_outer_white_space (s : string) :
  ∃ pre post,
    s = pre +:+ strip s +:+ post
    ∧ all_chars is_space pre = true ∧ all_chars is_space post = true
    ∧ not_space_at (head_char (strip s)) = true
    ∧ not_space_at (last_char (strip s)) = true.
Proof.
  unfold strip.
  destruct (lstrip_decompose s) as (pre & Hs & Hpre & Hhead).
  destruct (rstrip_decompose (lstrip s)) as (post & Hl & Hpost & Hlast).
  exists pre, post. split_and!; try done.
  - by rewrite <- Hl.
  - by apply rstrip_keeps_head.
Qed.









(** ** More on loading the registrations *)

Lemma not_word_not_upper (c : ascii) :
  is_word c = false → in_range "A" "Z" c = false.
Proof. by_ascii c. Qed.

Lemma plate_format_inv (p : string) :
  plate_format p = true →
  ∃ a b c d f g h,
    p = String a (String b (String c (String d (String " " (String f
          (String g (String h EmptyString)))))))
    ∧ in_range "A" "Z" a = true ∧ in_range "A" "Z" b = true
    ∧ is_decimal c = true ∧ is_decimal d = true
    ∧ in_range "A" "Z" f = true ∧ in_range "A" "Z" g = true
    ∧ in_range "A" "Z" h = true.
Proof.
  unfold plate_format.
  destruct p as [|a [|b [|c [|d [|e [|f [|g [|h [|]]]]]]]]]; try done.
  intros Hp. do 7 (apply andb_true_iff in Hp as [Hp ?]).
  match goal with H : bool_decide _ = true |- _ =>
    apply bool_decide_eq_true in H; subst e end.
  exists a, b, c, d, f, g, h. by split_and!.
Qed.

(** The pattern matches a registration that stands between two places
    without a word character. *)
Lemma match_here_plate (prev : option ascii) (p tail : string) :
  plate_format p = true →
  word_at prev = false → word_at (head_char tail) = false →
  match_here INPUT_PATTERN prev (p +:+ tail) = Some p.
Proof.
  intros (a & b & c & d & f & g & h & -> & Ha & Hb & Hc & Hd & Hf & Hg & Hh)
    %plate_format_inv Hprev Htail.
  apply upper_is_word in Ha as Wa, Hh as Wh.
  rewrite !append_cons, append_nil_l.
  unfold INPUT_PATTERN, match_here, atom_matches, word_at, head_char in *.
  rewrite Hprev, Htail. cbn [from_option].
  rewrite Wa, Wh, Ha, Hb, Hc, Hd, Hf, Hg, Hh.
  by vm_compute.
Qed.

Lemma findall_from_plate (prev : option ascii) (p tail : string) :
  plate_format p = true →
  word_at prev = false → word_at (head_char tail) = false →
  findall_from INPUT_PATTERN 0 prev (p +:+ tail)
  = p :: findall_from INPUT_PATTERN 0 (last_char p) tail.
Proof.
  intros Hp Hprev Htail.
  pose proof (match_here_plate prev p tail Hp Hprev Htail) as Hm.
  apply plate_format_inv in Hp
    as (a & b & c & d & f & g & h & -> & _).
  rewrite !append_cons, append_nil_l in *.
  cbn [findall_from]. rewrite Hm. reflexivity.
Qed.

Lemma findall_from_separator (prev : option ascii) (sep : ascii)
    (rest : string) :
  is_word sep = false →
  findall_from INPUT_PATTERN 0 prev (String sep rest)
  = findall_from INPUT_PATTERN 0 (Some sep) rest.
Proof.
  intros Hsep%not_word_not_upper. cbn [findall_from].
  assert (match_here INPUT_PATTERN prev (String sep rest) = None) as ->; [|done].
  unfold INPUT_PATTERN, match_here, atom_matches. rewrite Hsep.
  by destruct (xorb _ _).
Qed.

Lemma findall_from_join (sep : ascii) (plates : list string)
    (prev : option ascii) :
  is_word sep = false → word_at prev = false →
  Forall (λ p, plate_format p = true) plates →
  findall_from INPUT_PATTERN 0 prev (join (String sep EmptyString) plates)
  = plates.
Proof.
  intros Hsep. revert prev.
  induction plates as [|p [|q plates] IH]; intros prev Hprev Hall.
  - done.
  - apply Forall_cons in Hall as [Hp _]. cbn [join].
    rewrite <- (append_nil_r p) at 1.
    by rewrite findall_from_plate.
  - apply Forall_cons in Hall as [Hp Hall].
    change (join (String sep EmptyString) (p :: q :: plates))
      with (p +:+ String sep (join (String sep EmptyString) (q :: plates))).
    rewrite findall_from_plate by (done || by simpl; rewrite Hsep).
    rewrite (findall_from_separator _ _ _ Hsep).
    f_equal. apply IH; [by simpl|done].
Qed.

(** X16: registrations written out with one character that is no word
    character between them (a line break, a comma, a space) are loaded
    back as the same list: same registrations, same order, repetitions
    kept. *)
Theorem load_registrations_round_trip (sep : ascii) (plates : list string) :
  is_word sep = false →
  Forall (λ p, plate_format p = true) plates →
  load_registrations (join (String sep EmptyString) plates) = plates.
Proof. intros Hsep Hall. by apply findall_from_join. Qed.

Lemma load_registrations_round_trip_witness :
  load_registrations (join newline ["AB12 CDE"; "XY99 ZZZ"; "AB12 CDE"])
  = ["AB12 CDE"; "XY99 ZZZ"; "AB12 CDE"].
Proof.
  apply (load_registrations_round_trip "010" ["AB12 CDE"; "XY99 ZZZ"; "AB12 CDE"]).
  - reflexivity.
  - repeat constructor.
Defined.

Lemma decimal_not_upper (c : ascii) :
  is_decimal c = true → in_range "A" "Z" c = false.
Proof. by_ascii c. Qed.

(** X17: a registration with a letter, a digit or an underscore right
    before it or right after it is not loaded: the pattern wants a word
    boundary on both sides. *)
Theorem glued_registration_not_loaded (p : string) (x : ascii) :
  plate_format p = true → is_word x = true →
  load_registrations (String x p) = []
  ∧ load_registrations (p +:+ String x EmptyString) = [].
Proof.
  intros (a & b & c & d & f & g & h & -> & Ha & Hb & Hc & Hd & Hf & Hg & Hh)
    %plate_format_inv Wx.
  apply upper_is_word in Ha as Wa, Hb as Wb, Hf as Wf, Hg as Wg, Hh as Wh.
  apply decimal_is_word in Hc as Wc, Hd as Wd.
  apply upper_not_decimal in Hb as Nb, Hh as Nh.
  rewrite !append_cons, append_nil_l.
  unfold load_registrations, findall, findall_from, INPUT_PATTERN, match_here,
    atom_matches, word_at, head_char, from_option.
  rewrite ?Wx, ?Wa, ?Wb, ?Wc, ?Wd, ?Wf, ?Wg, ?Wh, ?Ha, ?Hb, ?Hc, ?Hd, ?Hf, ?Hg,
    ?Hh, ?Nb, ?Nh.
  destruct (in_range "A" "Z" x); by vm_compute.
Qed.

Lemma glued_registration_not_loaded_witness :
  load_registrations "XAB12 CDE" = [] ∧ load_registrations "AB12 CDE7" = [].
Proof.
  split.
  - apply (glued_registration_not_loaded "AB12 CDE" "X"); reflexivity.
  - apply (glued_registration_not_loaded "AB12 CDE" "7"); reflexivity.
Defined.

(** ** Expected data, screenshots and the order of the steps *)



Section MoreValidatorFacts.
Context {S : Type} `{WebDriver S}.
Implicit Types (configs : list (string * site_config)).

(** X18: for a site of the table and the map that [load_expected_data]
    builds, the expected fields of the row of a registration are the
    model cell and the year, as text, of the last row of the table that
    names it, and "Not Found" and "N/A" when no row names it. *)
Theorem expected_fields_from_table configs (name plate : string)
    (df : list csv_row) (cfg : site_config) (s : S) :
  dict_lookup configs name = Some cfg →
  ∃ r s',
    validate_registration configs name plate (load_expected_data df) s = Ok r s'
    ∧ ((∀ row, row ∈ df → row.(VARIANT_REG) ≠ plate) →
         r.(exp_model) = VStr "Not Found" ∧ r.(exp_year) = VStr "N/A")
    ∧ (∀ before row after,
         df = (before ++ row :: after)%list →
         row.(VARIANT_REG) = plate →
         (∀ row', row' ∈ after → row'.(VARIANT_REG) ≠ plate) →
         r.(exp_model) = row.(MAKE_MODEL)
         ∧ r.(exp_year) = VStr (py_str row.(YEAR))).
Proof.
  intros Hcfg.
  destruct (validate_registration_returns configs name plate
              (load_expected_data df) s) as (r & s' & Hrun & _).
  exists r, s'. split; [exact Hrun|].
  apply validate_registration_expected in Hrun as (_ & _ & [[Hn _]|[_ Hexp]]);
    [by rewrite Hcfg in Hn|].
  unfold expected_or_sentinel in Hexp. split.
  - intros Hnone.
    destruct (load_expected_data df !! plate) as [v|] eqn:Hv.
    + apply load_expected_data_value in Hv as (row & Hin & Hk & _).
      by destruct (Hnone row Hin).
    + by injection Hexp as -> ->.
  - intros before row after -> Hk Hlast.
    assert (load_expected_data (before ++ row :: after) !! plate
            = Some (expected_entry row)) as Hv.
    { unfold load_expected_data. rewrite foldl_app. simpl.
      rewrite (load_expected_data_later_rows after _ _ Hlast), Hk.
      apply lookup_insert_eq. }
    rewrite Hv in Hexp. by injection Hexp as -> ->.
Qed.


Lemma for_fold_app {A B} (l1 l2 : list A) (acc : B) (body : A → B → M S B)
    (s : S) :
  for_fold (l1 ++ l2) acc body s
  = match for_fold l1 acc body s with
    | Ok acc' s' => for_fold l2 acc' body s'
    | Raise e s' => Raise e s'
    end.
Proof.
  revert acc s. induction l1 as [|x l1 IH]; intros acc s; [done|].
  simpl. unfold_M. destruct (body x acc s) as [acc' s'|e s']; [|done].
  apply IH.
Qed.

(** X20: the steps of a flow are played in order and the flow stops at
    the first step that raises: after a successful navigation and the
    steps before it, a step that raises a [WebDriverException] makes the
    search return [False] in the state that step left, and one that
    raises anything else lets that exception out; the later steps are
    not played. *)
Theorem search_stops_at_first_failing_step (self : WebsiteValidator)
    (plate : string) (before after : list flow_step) (st : flow_step)
    (e : exn) (s s0 s1 s2 : S) :
  self.(config).(search_flow) = (before ++ st :: after)%list →
  driver_get self.(config).(base_url) s = Ok tt s0 →
  for_fold before tt (λ step _, _execute_action self step plate) s0 = Ok tt s1 →
  _execute_action self st plate s1 = Raise e s2 →
  search_registration self plate s
  = if is_WebDriverException e then Ok (Some false) s2 else Raise e s2.
Proof.
  intros Hflow Hget Hbefore Hst.
  rewrite search_registration_single.
  unfold search_registration_body. unfold_M.
  rewrite Hget, Hflow, for_fold_app, Hbefore. simpl. unfold_M.
  rewrite Hst. by destruct (is_WebDriverException e).
Qed.

End MoreValidatorFacts.

Lemma expected_fields_from_table_witness :
  ∃ r s', validate_registration demo_configs "motorway" "AB12 CDE"
            (load_expected_data demo_table) healthy = Ok r s'
    ∧ r.(exp_model) = VStr "Ford Focus" ∧ r.(exp_year) = VStr "2019".
Proof.
  destruct (expected_fields_from_table demo_configs "motorway" "AB12 CDE"
              demo_table motorway_input_only healthy)
    as (r & s' & Hrun & _ & Hlast); [reflexivity|].
  exists r, s'. split; [exact Hrun|].
  apply (Hlast [] (Build_csv_row "AB12 CDE" (VStr "Ford Focus") (VInt 2019)) []);
    [reflexivity..|].
  by intros row ?%elem_of_nil.
Defined.

Lemma search_stops_at_first_failing_step_witness :
  search_registration (WebsiteValidator_init autotrader) "AB12 CDE" blank
  = Ok (Some false)
      {| get_failures := 0; page := [("input#vrm-input", "")];
         navigations := 1; slept := [] |}.
Proof.
  apply (search_stops_at_first_failing_step (WebsiteValidator_init autotrader)
           "AB12 CDE" [] (drop 1 autotrader.(search_flow))
           {[ "action" := SStr "click";
              "locator" := SLoc (By_CSS_SELECTOR, "button[data-testid='toggle-button']") ]}
           (TimeoutException "") blank
           {| get_failures := 0; page := [("input#vrm-input", "")];
              navigations := 1; slept := [] |}
           {| get_failures := 0; page := [("input#vrm-input", "")];
              navigations := 1; slept := [] |}
           {| get_failures := 0; page := [("input#vrm-input", "")];
              navigations := 1; slept := [] |}); reflexivity.
Defined.

(** ** The browser around the run *)

(** X21: once [__enter__] has returned, the [with] block quits the
    browser on both ways out of its body, and an exception of the body
    goes on after the quit (unless the quit raises one of its own); but
    when Chrome has started and the implicit wait then raises, the
    exception leaves the block with the body not run and the browser not
    quit. *)
Theorem browser_quit_after_enter {S : Type} `{WebDriver S} `{ChromeHost S}
    {A : Type} (body : M S A) (s : S) :
  (∀ s2, browser_starts s s2 →
     with_BrowserManager body s
     = match body s2 with
       | Ok a s3 =>
           match driver_quit s3 with
           | Ok _ s4 => Ok a s4
           | Raise e s4 => Raise e s4
           end
       | Raise e s3 =>
           match driver_quit s3 with
           | Ok _ s4 => Raise e s4
           | Raise e' s4 => Raise e' s4
           end
       end)
  ∧ (∀ s0 s1 s2 e,
       install_chromedriver s = Ok tt s0 →
       start_chrome s0 = Ok tt s1 →
       implicitly_wait 10 s1 = Raise e s2 →
       with_BrowserManager body s = Raise e s2).
Proof.
  split.
  - intros s2 (s0 & s1 & Hi & Hc & Hw).
    unfold with_BrowserManager, BrowserManager__init__, BrowserManager__enter__,
      BrowserManager__exit__. unfold_M.
    rewrite Hi. simpl. rewrite Hc. simpl. rewrite Hw. simpl.
    destruct (body s2) as [a s3|e s3]; by destruct (driver_quit s3) as [[] ?|? ?].
  - intros s0 s1 s2 e Hi Hc Hw.
    unfold with_BrowserManager, BrowserManager__init__, BrowserManager__enter__.
    unfold_M. rewrite Hi. simpl. rewrite Hc. simpl. rewrite Hw. simpl.
    by destruct (is_WebDriverException e).
Qed.
